(** * confluent-kafka-python: primitive serializers and the Avro record wrappers

    A shallow embedding of

    - [confluent_kafka/serialization/serializers.py]: the fixed-width
      big-endian codecs built on [struct.pack] / [struct.unpack] and the
      text codec built on [str.encode] / [bytes.decode];
    - [confluent_kafka/avro/__init__.py]: [_AvroProducerSerializer],
      [AvroProducer] and [AvroConsumer].

    Python exceptions are values of [exn]; a call that may raise returns a
    [Result].  Python [None] is [None] of an [option]. *)

From Stdlib Require Import ZArith List String Ascii Bool Lia.
From Stdlib Require Import Strings.Byte DecimalString.
From Stdlib Require Import PrimFloat SpecFloat FloatOps FloatAxioms.
Import ListNotations.
Local Open Scope Z_scope.

(** ** Exceptions and results *)

(** The argument a [SerializerError] is built from: a text, or the
    [struct.error] object itself ([raise SerializerError(e)]). *)
Inductive SerializerArg : Type :=
| ArgText (s : string)
| ArgStructError (msg : string).

Inductive exn : Type :=
| struct_error (msg : string)
| OverflowError (msg : string)
| UnicodeDecodeError (codec : string) (pos : nat) (reason : string)
| UnicodeEncodeError (codec : string) (pos : nat) (reason : string)
| AttributeError (msg : string)
| ValueError (msg : string)
| SerializerError (arg : SerializerArg)
| KeySerializerError (arg : SerializerArg)
| ValueSerializerError (arg : SerializerArg)
| SerializationConfigError (msg : string)
| ExternalError (name : string) (msg : string).

Inductive Result (A : Type) : Type :=
| Ok (a : A)
| Raise (e : exn).
Arguments Ok {A} a.
Arguments Raise {A} e.

Definition bind {A B : Type} (r : Result A) (k : A -> Result B) : Result B :=
  match r with
  | Ok a => k a
  | Raise e => Raise e
  end.

(** [try: r except struct.error as e: h e] *)
Definition except_struct_error {A : Type} (r : Result A)
  (h : string -> Result A) : Result A :=
  match r with
  | Raise (struct_error m) => h m
  | _ => r
  end.

(** The interpreter line the code runs on.  [e.message] exists on every
    exception of Python 2 and on no built-in exception of Python 3. *)
Inductive PyVersion : Type := Py2 | Py3.

(** [raise SerializerError(e)] inside [except struct.error as e] *)
Definition raise_SerializerError_of {A : Type} (m : string) : Result A :=
  Raise (SerializerError (ArgStructError m)).

(** [raise SerializerError(e.message)] inside [except struct.error as e] *)
Definition raise_SerializerError_of_message {A : Type} (py : PyVersion)
  (m : string) : Result A :=
  match py with
  | Py2 => Raise (SerializerError (ArgText m))
  | Py3 => Raise (AttributeError "'error' object has no attribute 'message'")
  end.

(** Modelled from the spec: the class [SerializerError] and its subclasses
    (confluent_kafka/serialization/error.py is not among the sources).  A
    serializer error carries the cause it was built from; [e.message] gives
    it back and [str(e)] is its text.  [KeySerializerError],
    [ValueSerializerError] and the configuration error are kinds of
    [SerializerError], so [except SerializerError as e] catches all four;
    the result is [e.message]. *)
Definition SerializerError_message (e : exn) : option SerializerArg :=
  match e with
  | SerializerError a | KeySerializerError a | ValueSerializerError a => Some a
  | SerializationConfigError m => Some (ArgText m)
  | _ => None
  end.

Definition is_SerializerError (e : exn) : bool :=
  match SerializerError_message e with
  | Some _ => true
  | None => false
  end.

Definition arg_text (a : SerializerArg) : string :=
  match a with
  | ArgText s => s
  | ArgStructError m => m
  end.

(** ** Serialization context *)

Inductive MessageField : Type := KEY | VALUE.

Record SerializationContext : Type := mkCtx {
  ctx_topic : string;
  ctx_field : MessageField
}.

(** ** Bytes *)

Definition bytes : Type := list byte.

Definition Z_of_byte (b : byte) : Z := Z.of_N (Byte.to_N b).

Definition byte_of_Z (z : Z) : byte :=
  match Byte.of_N (Z.to_N (z mod 256)) with
  | Some b => b
  | None => x00
  end.

(** [n] bytes, most significant first, of [z mod 2^(8n)]. *)
Fixpoint be_bytes (n : nat) (z : Z) : bytes :=
  match n with
  | O => []
  | S k => byte_of_Z (Z.shiftr z (8 * Z.of_nat k)) :: be_bytes k z
  end.

(** The unsigned big-endian value of a byte string. *)
Definition be_value (bs : bytes) : Z :=
  fold_left (fun acc b => acc * 256 + Z_of_byte b) bs 0.

(** ** [struct] integer formats *)

(** A signed big-endian format of [width] bytes: ['>h'], ['>i'], ['>q']. *)
Record int_format : Type := mkFmt {
  fmt_code : string;
  fmt_width : nat
}.

Definition fmt_h : int_format := mkFmt ">h" 2.
Definition fmt_i : int_format := mkFmt ">i" 4.
Definition fmt_q : int_format := mkFmt ">q" 8.

Definition fmt_bits (f : int_format) : Z := 8 * Z.of_nat (fmt_width f).
Definition fmt_min (f : int_format) : Z := - 2 ^ (fmt_bits f - 1).
Definition fmt_max (f : int_format) : Z := 2 ^ (fmt_bits f - 1) - 1.

Definition in_range (f : int_format) (v : Z) : bool :=
  (fmt_min f <=? v) && (v <=? fmt_max f).

(** [struct.pack(fmt, v)] for an [int] argument. *)
Definition struct_pack_int (f : int_format) (v : Z) : Result bytes :=
  if in_range f v
  then Ok (be_bytes (fmt_width f) (v mod 2 ^ fmt_bits f))
  else Raise (struct_error "argument out of range").

Definition unpack_size_message (width : nat) : string :=
  "unpack requires a buffer of "
  ++ DecimalString.NilZero.string_of_int (Z.to_int (Z.of_nat width))
  ++ " bytes".

(** [struct.unpack(fmt, data)[0]] *)
Definition struct_unpack_int (f : int_format) (data : bytes) : Result Z :=
  if Nat.eqb (List.length data) (fmt_width f)
  then let u := be_value data in
       Ok (if u <? 2 ^ (fmt_bits f - 1) then u else u - 2 ^ fmt_bits f)
  else Raise (struct_error (unpack_size_message (fmt_width f))).

(** ** [struct] floating-point formats

    A Python [float] is an IEEE 754 binary64 number: the primitive [float].
    [Prim2SF] gives its sign, mantissa and exponent; the interchange
    encoding below lays them out in [1 + ew + mw] bits. *)

Section Interchange.
Variables prec emax : Z.

Let mw : Z := prec - 1.
Let emin : Z := 3 - emax - prec.

Definition sign_bit (s : bool) : Z :=
  if s then 2 ^ (mw + Z.log2 emax + 1) else 0.

Definition exp_field (biased : Z) : Z := Z.shiftl biased mw.

Definition bits_of_SF (x : spec_float) : Z :=
  match x with
  | S754_zero s => sign_bit s
  | S754_infinity s => sign_bit s + exp_field (2 * emax - 1)
  | S754_nan => exp_field (2 * emax - 1) + 2 ^ (mw - 1)
  | S754_finite s m e =>
      if Zpos (digits2_pos m) =? prec
      then sign_bit s + exp_field (e - emin + 1) + (Zpos m - 2 ^ mw)
      else sign_bit s + Zpos m
  end.

Definition SF_of_bits (u : Z) : spec_float :=
  let s := Z.testbit u (mw + Z.log2 emax + 1) in
  let biased := Z.land (Z.shiftr u mw) (2 * emax - 1) in
  let frac := Z.land u (2 ^ mw - 1) in
  if biased =? 2 * emax - 1 then
    if frac =? 0 then S754_infinity s else S754_nan
  else if biased =? 0 then
    match frac with
    | Zpos m => S754_finite s m emin
    | _ => S754_zero s
    end
  else
    match frac + 2 ^ mw with
    | Zpos m => S754_finite s m (biased - 1 + emin)
    | _ => S754_zero s
    end.
End Interchange.

(** The C conversion [(float)x] of a double: round to nearest even in
    binary32. *)
Definition round_to_single (x : spec_float) : spec_float :=
  match x with
  | S754_finite s m e => binary_round 24 128 s m e
  | _ => x
  end.

Definition is_SF_infinity (x : spec_float) : bool :=
  match x with
  | S754_infinity _ => true
  | _ => false
  end.

(** A double fits ['f'] unless rounding a finite value gives an infinity. *)
Definition fits_single (x : float) : bool :=
  let sf := Prim2SF x in
  negb (is_SF_infinity (round_to_single sf) && negb (is_SF_infinity sf)).

(** [struct.pack('>d', x)] *)
Definition struct_pack_d (x : float) : Result bytes :=
  Ok (be_bytes 8 (bits_of_SF 53 1024 (Prim2SF x))).

(** [struct.pack('>f', x)]: a finite double that overflows binary32 raises
    [OverflowError], which is not a [struct.error]. *)
Definition struct_pack_f (x : float) : Result bytes :=
  if fits_single x
  then Ok (be_bytes 4 (bits_of_SF 24 128 (round_to_single (Prim2SF x))))
  else Raise (OverflowError "float too large to pack with f format").

(** [struct.unpack('>d', data)[0]] *)
Definition struct_unpack_d (data : bytes) : Result float :=
  if Nat.eqb (List.length data) 8
  then Ok (SF2Prim (SF_of_bits 53 1024 (be_value data)))
  else Raise (struct_error "unpack requires a buffer of 8 bytes").

(** [struct.unpack('>f', data)[0]] *)
Definition struct_unpack_f (data : bytes) : Result float :=
  if Nat.eqb (List.length data) 4
  then Ok (SF2Prim (SF_of_bits 24 128 (be_value data)))
  else Raise (struct_error "unpack requires a buffer of 4 bytes").

(** ** Text codecs

    A Python [str] is a sequence of code points.  [str.encode(codec)] and
    [bytes.decode(codec)] raise [UnicodeEncodeError] / [UnicodeDecodeError],
    both subclasses of [ValueError] and unrelated to [struct.error]. *)

Definition pystr : Type := list Z.

Inductive Codec : Type := utf_8 | ascii_codec | latin_1.

Definition codec_name (c : Codec) : string :=
  match c with
  | utf_8 => "utf-8"
  | ascii_codec => "ascii"
  | latin_1 => "latin-1"
  end.

Definition cons_ok {A : Type} (a : A) (r : Result (list A)) : Result (list A) :=
  bind r (fun l => Ok (a :: l)).

Definition is_cont (b : Z) : bool := (0x80 <=? b) && (b <=? 0xBF).
Definition between (lo hi b : Z) : bool := (lo <=? b) && (b <=? hi).

Definition utf8_error {A : Type} (pos : nat) (reason : string) : Result A :=
  Raise (UnicodeDecodeError "utf-8" pos reason).

(** The second byte of a three-byte sequence: no overlong form under
    [0xE0], no surrogate under [0xED]. *)
Definition second_of_3 (b0 b1 : Z) : bool :=
  if b0 =? 0xE0 then between 0xA0 0xBF b1
  else if b0 =? 0xED then between 0x80 0x9F b1
  else is_cont b1.

(** The second byte of a four-byte sequence: no overlong form under
    [0xF0], nothing above U+10FFFF under [0xF4]. *)
Definition second_of_4 (b0 b1 : Z) : bool :=
  if b0 =? 0xF0 then between 0x90 0xBF b1
  else if b0 =? 0xF4 then between 0x80 0x8F b1
  else is_cont b1.

Fixpoint utf8_decode (pos : nat) (bs : list Z) : Result pystr :=
  match bs with
  | [] => Ok []
  | b0 :: r0 =>
      if b0 <? 0x80 then cons_ok b0 (utf8_decode (S pos) r0)
      else if b0 <? 0xC2 then utf8_error pos "invalid start byte"
      else if b0 <? 0xE0 then
        match r0 with
        | [] => utf8_error pos "unexpected end of data"
        | b1 :: r1 =>
            if is_cont b1
            then cons_ok ((b0 - 0xC0) * 64 + (b1 - 0x80))
                   (utf8_decode (2 + pos) r1)
            else utf8_error pos "invalid continuation byte"
        end
      else if b0 <? 0xF0 then
        match r0 with
        | [] => utf8_error pos "unexpected end of data"
        | b1 :: r1 =>
            if second_of_3 b0 b1 then
              match r1 with
              | [] => utf8_error pos "unexpected end of data"
              | b2 :: r2 =>
                  if is_cont b2
                  then cons_ok ((b0 - 0xE0) * 4096 + (b1 - 0x80) * 64
                                + (b2 - 0x80))
                         (utf8_decode (3 + pos) r2)
                  else utf8_error pos "invalid continuation byte"
              end
            else utf8_error pos "invalid continuation byte"
        end
      else if b0 <? 0xF5 then
        match r0 with
        | [] => utf8_error pos "unexpected end of data"
        | b1 :: r1 =>
            if second_of_4 b0 b1 then
              match r1 with
              | [] => utf8_error pos "unexpected end of data"
              | b2 :: r2 =>
                  if is_cont b2 then
                    match r2 with
                    | [] => utf8_error pos "unexpected end of data"
                    | b3 :: r3 =>
                        if is_cont b3
                        then cons_ok ((b0 - 0xF0) * 262144
                                      + (b1 - 0x80) * 4096
                                      + (b2 - 0x80) * 64 + (b3 - 0x80))
                               (utf8_decode (4 + pos) r3)
                        else utf8_error pos "invalid continuation byte"
                    end
                  else utf8_error pos "invalid continuation byte"
              end
            else utf8_error pos "invalid continuation byte"
        end
      else utf8_error pos "invalid start byte"
  end.

Definition utf8_encode_point (c : Z) : option (list Z) :=
  if c <? 0x80 then Some [c]
  else if c <? 0x800 then Some [0xC0 + c / 64; 0x80 + c mod 64]
  else if c <? 0x10000 then
    if between 0xD800 0xDFFF c then None
    else Some [0xE0 + c / 4096; 0x80 + (c / 64) mod 64; 0x80 + c mod 64]
  else Some [0xF0 + c / 262144; 0x80 + (c / 4096) mod 64;
             0x80 + (c / 64) mod 64; 0x80 + c mod 64].

Fixpoint utf8_encode (pos : nat) (s : pystr) : Result (list Z) :=
  match s with
  | [] => Ok []
  | c :: r =>
      match utf8_encode_point c with
      | Some bs => bind (utf8_encode (S pos) r) (fun t => Ok (bs ++ t))
      | None => Raise (UnicodeEncodeError "utf-8" pos "surrogates not allowed")
      end
  end.

(** The single-byte codecs: every unit below [limit] is itself. *)
Fixpoint narrow (limit : Z) (fail : nat -> exn) (pos : nat) (l : list Z)
  : Result (list Z) :=
  match l with
  | [] => Ok []
  | c :: r =>
      if c <? limit then cons_ok c (narrow limit fail (S pos) r)
      else Raise (fail pos)
  end.

(** [data.decode(codec)] *)
Definition bytes_decode (c : Codec) (data : bytes) : Result pystr :=
  let units := map Z_of_byte data in
  match c with
  | utf_8 => utf8_decode 0 units
  | ascii_codec =>
      narrow 128
        (fun p => UnicodeDecodeError "ascii" p "ordinal not in range(128)")
        0 units
  | latin_1 => Ok units
  end.

(** [datum.encode(codec)] *)
Definition str_encode (c : Codec) (datum : pystr) : Result bytes :=
  bind
    match c with
    | utf_8 => utf8_encode 0 datum
    | ascii_codec =>
        narrow 128
          (fun p => UnicodeEncodeError "ascii" p "ordinal not in range(128)")
          0 datum
    | latin_1 =>
        narrow 256
          (fun p => UnicodeEncodeError "latin-1" p "ordinal not in range(256)")
          0 datum
    end
    (fun units => Ok (map byte_of_Z units)).

(** ** The serializers of [serializers.py]

    Every method takes the serialization context and ignores it;
    [AvroConsumer.poll] passes [None] for it. *)

Definition Ctx : Type := option SerializationContext.

Definition some {A : Type} (r : Result A) : Result (option A) :=
  bind r (fun a => Ok (Some a)).

Module DoubleSerializer.
Definition serialize (datum : option float) (ctx : Ctx)
  : Result (option bytes) :=
  match datum with
  | None => Ok None
  | Some x =>
      except_struct_error (some (struct_pack_d x)) raise_SerializerError_of
  end.

Definition deserialize (data : option bytes) (ctx : Ctx)
  : Result (option float) :=
  match data with
  | None => Ok None
  | Some b =>
      except_struct_error (some (struct_unpack_d b)) raise_SerializerError_of
  end.
End DoubleSerializer.

Module FloatSerializer.
Definition serialize (datum : option float) (ctx : Ctx)
  : Result (option bytes) :=
  match datum with
  | None => Ok None
  | Some x =>
      except_struct_error (some (struct_pack_f x)) raise_SerializerError_of
  end.

Definition deserialize (data : option bytes) (ctx : Ctx)
  : Result (option float) :=
  match data with
  | None => Ok None
  | Some b =>
      except_struct_error (some (struct_unpack_f b)) raise_SerializerError_of
  end.
End FloatSerializer.

Module LongSerializer.
Definition serialize (datum : option Z) (ctx : Ctx)
  : Result (option bytes) :=
  match datum with
  | None => Ok None
  | Some v =>
      except_struct_error (some (struct_pack_int fmt_q v))
        raise_SerializerError_of
  end.

Definition deserialize (data : option bytes) (ctx : Ctx)
  : Result (option Z) :=
  match data with
  | None => Ok None
  | Some b =>
      except_struct_error (some (struct_unpack_int fmt_q b))
        raise_SerializerError_of
  end.
End LongSerializer.

Module IntegerSerializer.
Definition serialize (py : PyVersion) (datum : option Z) (ctx : Ctx)
  : Result (option bytes) :=
  match datum with
  | None => Ok None
  | Some v =>
      except_struct_error (some (struct_pack_int fmt_i v))
        (raise_SerializerError_of_message py)
  end.

Definition deserialize (py : PyVersion) (data : option bytes) (ctx : Ctx)
  : Result (option Z) :=
  match data with
  | None => Ok None
  | Some b =>
      except_struct_error (some (struct_unpack_int fmt_i b))
        (raise_SerializerError_of_message py)
  end.
End IntegerSerializer.

Module ShortSerializer.
Definition serialize (py : PyVersion) (datum : option Z) (ctx : Ctx)
  : Result (option bytes) :=
  match datum with
  | None => Ok None
  | Some v =>
      except_struct_error (some (struct_pack_int fmt_h v))
        (raise_SerializerError_of_message py)
  end.

Definition deserialize (data : option bytes) (ctx : Ctx)
  : Result (option Z) :=
  match data with
  | None => Ok None
  | Some b =>
      except_struct_error (some (struct_unpack_int fmt_h b))
        raise_SerializerError_of
  end.
End ShortSerializer.

Module StringSerializer.
(** [self.codec], ['utf_8'] unless the constructor is given another. *)
Definition default_codec : Codec := utf_8.

Definition serialize (py : PyVersion) (codec : Codec)
  (datum : option pystr) (ctx : Ctx) : Result (option bytes) :=
  match datum with
  | None => Ok None
  | Some s =>
      except_struct_error (some (str_encode codec s))
        (raise_SerializerError_of_message py)
  end.

Definition deserialize (py : PyVersion) (codec : Codec)
  (data : option bytes) (ctx : Ctx) : Result (option pystr) :=
  match data with
  | None => Ok None
  | Some b =>
      except_struct_error (some (bytes_decode codec b))
        (raise_SerializerError_of_message py)
  end.
End StringSerializer.

(** ** Configuration dictionaries

    A Python [dict] keeps its keys in insertion order; assigning to a key
    that is present replaces the value where it stands. *)

Inductive ConfValue : Type :=
| CNone
| CStr (s : string)
| CInt (z : Z)
| CBool (b : bool)
| CObj (id : nat).

Definition dict : Type := list (string * ConfValue).

Fixpoint dict_get (d : dict) (k : string) : option ConfValue :=
  match d with
  | [] => None
  | (k', v) :: r => if String.eqb k' k then Some v else dict_get r k
  end.

(** [d.get(k, default)] *)
Definition dict_get_default (d : dict) (k : string) (default : ConfValue)
  : ConfValue :=
  match dict_get d k with
  | Some v => v
  | None => default
  end.

(** [d[k] = v] *)
Fixpoint dict_set (d : dict) (k : string) (v : ConfValue) : dict :=
  match d with
  | [] => [(k, v)]
  | (k', v') :: r =>
      if String.eqb k' k then (k', v) :: r else (k', v') :: dict_set r k v
  end.

(** [{key_of(k): v for k, v in d.items() if keep(k)}] *)
Definition dict_comprehension (key_of : string -> string)
  (keep : string -> bool) (d : dict) : dict :=
  fold_left
    (fun acc kv => if keep (fst kv) then dict_set acc (key_of (fst kv)) (snd kv)
                   else acc)
    d [].

(** The entries a comprehension assigns, in order. *)
Definition assigned (key_of : string -> string) (keep : string -> bool)
  (d : dict) : dict :=
  map (fun kv => (key_of (fst kv), snd kv)) (filter (fun kv => keep (fst kv)) d).

(** [s.replace(old, new)] for a non-empty [old]: occurrences are taken from
    the left and do not overlap; [skip] counts the characters of the
    occurrence still to pass over. *)
Fixpoint replace_from (old new : string) (skip : nat) (s : string) : string :=
  match s with
  | EmptyString => EmptyString
  | String c r =>
      match skip with
      | S k => replace_from old new k r
      | O =>
          if String.prefix old s
          then new ++ replace_from old new (String.length old - 1) r
          else String c (replace_from old new 0 r)
      end
  end.

Definition str_replace (old new s : string) : string :=
  replace_from old new 0 s.

(** [key.startswith("schema.registry")] *)
Definition is_sr_key (key : string) : bool :=
  String.prefix "schema.registry" key.

(** The first statement of both constructors. *)
Definition sr_conf_of (config : dict) : dict :=
  dict_comprehension (str_replace "schema.registry." "") is_sr_key config.

Definition is_SASL_INHERIT (v : option ConfValue) : bool :=
  match v with
  | Some (CStr s) => String.eqb s "SASL_INHERIT"
  | _ => false
  end.

(** The [SASL_INHERIT] block of both constructors. *)
Definition inherit_sasl (config sr_conf : dict) : dict :=
  if is_SASL_INHERIT (dict_get sr_conf "basic.auth.credentials.source")
  then
    let d1 := dict_set sr_conf "sasl.mechanisms"
                (dict_get_default config "sasl.mechanisms" (CStr "")) in
    let d2 := dict_set d1 "sasl.username"
                (dict_get_default config "sasl.username" (CStr "")) in
    dict_set d2 "sasl.password"
      (dict_get_default config "sasl.password" (CStr ""))
  else sr_conf.

Definition ap_conf_of (config : dict) : dict :=
  dict_comprehension (fun k => k) (fun k => negb (is_sr_key k)) config.

(** [sr_conf.get("url", None) is not None] *)
Definition has_url (sr_conf : dict) : bool :=
  match dict_get sr_conf "url" with
  | None | Some CNone => false
  | Some _ => true
  end.

(** [str(n)] of an [int] *)
Definition str_of_int (n : Z) : string :=
  DecimalString.NilZero.string_of_int (Z.to_int n).

(** ** The Avro wrappers of [avro/__init__.py]

    The collaborators (schema registry client, Avro encoding engine, the
    [Producer] and [Consumer] base classes) act on a [World] of their own.
    The wrappers add a ghost trace: one event per call they make to a
    serializer or to the transport. *)

Section Avro.
(** Avro schema objects, application values, registry client handles,
    converter objects, the pass-through keyword arguments of
    [Producer.produce], and [KafkaError] objects.  A schema, a converter
    and an error object have no [__bool__] or [__len__]: only [None] is
    false in [if not schema], [if self.converter], [if not
    message.error()]. *)
Variables Schema Value Registry Converter Extra KafkaError World : Type.

Inductive Event : Type :=
| EvSerialize (field : MessageField)
| EvDeserialize (field : MessageField)
| EvEncode (schema : Schema) (ctx : SerializationContext)
| EvSend (topic : string) (value key : option bytes)
| EvPoll
| EvRegistryClient (conf : dict)
| EvTransportInit (conf : dict).

Record State : Type := mkState {
  world : World;
  trace : list Event
}.

Definition M (A : Type) : Type := State -> Result A * State.

Definition ret {A : Type} (a : A) : M A := fun s => (Ok a, s).
Definition raise {A : Type} (e : exn) : M A := fun s => (Raise e, s).

Definition bindM {A B : Type} (m : M A) (k : A -> M B) : M B :=
  fun s =>
    match m s with
    | (Ok a, s') => k a s'
    | (Raise e, s') => (Raise e, s')
    end.

(** [try: m except SerializerError as e: h e.message] *)
Definition except_SerializerError {A : Type} (m : M A)
  (h : SerializerArg -> M A) : M A :=
  fun s =>
    match m s with
    | (Ok a, s') => (Ok a, s')
    | (Raise e, s') =>
        match SerializerError_message e with
        | Some a => h a s'
        | None => (Raise e, s')
        end
    end.

Definition tick (ev : Event) : M unit :=
  fun s => (Ok tt, mkState (world s) (trace s ++ [ev])).

(** A collaborator call: it sees and changes the world only. *)
Definition call {A : Type} (f : World -> Result A * World) : M A :=
  fun s => let (r, w) := f (world s) in (r, mkState w (trace s)).

Notation "x <- m ;; k" := (bindM m (fun x => k))
  (at level 61, m at next level, right associativity).
Notation "m ;; k" := (bindM m (fun _ => k))
  (at level 61, right associativity).

Record Message : Type := mkMessage {
  msg_topic : string;
  msg_partition : Z;
  msg_offset : Z;
  msg_key : option Value;
  msg_value : option Value;
  msg_error : option KafkaError
}.

Definition set_value (m : Message) (v : option Value) : Message :=
  mkMessage (msg_topic m) (msg_partition m) (msg_offset m)
    (msg_key m) v (msg_error m).

Definition set_key (m : Message) (k : option Value) : Message :=
  mkMessage (msg_topic m) (msg_partition m) (msg_offset m)
    k (msg_value m) (msg_error m).

(** Modelled from the spec: the attributes of [AvroSerializer]
    (confluent_kafka/serialization/avro.py is not among the sources).  A
    serializer instance is bound at construction to a registry client and
    an optional default schema; the constructor calls of this module pass
    [schema=] or [reader_schema=] and never a converter. *)
Record AvroSerializer : Type := mkAvroSerializer {
  registry_client : Registry;
  schema : option Schema;
  reader_schema : option Schema;
  converter : option Converter
}.

(** The encoding engine with the registry behind it: resolve or register
    the schema under the subject of [ctx], encode, frame. *)
Variable encode_engine :
  Registry -> Schema -> Value -> SerializationContext ->
  World -> Result bytes * World.
(** [converter.to_dict(datum)] *)
Variable to_dict : Converter -> Value -> World -> Result Value * World.
(** The decoding side of the engine, for a payload that is not [None]. *)
Variable decode_engine :
  AvroSerializer -> Value -> World -> Result (option Value) * World.
(** [Producer.produce(topic, value, key, **kwargs)] *)
Variable Producer_produce :
  string -> option bytes -> option bytes -> Extra ->
  World -> Result unit * World.
(** [Consumer.poll(timeout)] *)
Variable Consumer_poll : float -> World -> Result (option Message) * World.
(** [CachedSchemaRegistryClient(conf)] *)
Variable CachedSchemaRegistryClient :
  dict -> World -> Result Registry * World.
(** [Producer.__init__(conf)] and [Consumer.__init__(conf)] *)
Variable Producer_init : dict -> World -> Result unit * World.
Variable Consumer_init : dict -> World -> Result unit * World.

(** Modelled from the spec: [AvroSerializer._encode], which is not among
    the sources.  With no effective schema it fails with a configuration
    error and performs no registry interaction; otherwise it resolves or
    registers the schema's id, encodes the value against that schema and
    frames the body.  The result is what it wrote to [fo]. *)
Definition _encode (self : AvroSerializer) (schema : option Schema)
  (datum : Value) (ctx : SerializationContext) : M bytes :=
  match schema with
  | None => raise (SerializationConfigError "no schema available")
  | Some sch =>
      tick (EvEncode sch ctx) ;;
      call (encode_engine (registry_client self) sch datum ctx)
  end.

(** Modelled from the spec: [AvroSerializer.deserialize], which is not
    among the sources.  [None] input returns [None] immediately; any
    other payload goes to the decoding engine. *)
Definition AvroSerializer_deserialize (self : AvroSerializer)
  (data : option Value) (ctx : Ctx) : M (option Value) :=
  match data with
  | None => ret None
  | Some payload => call (decode_engine self payload)
  end.

(** [if not schema: schema = self.schema] *)
Definition effective_schema (self : AvroSerializer)
  (override : option Schema) : option Schema :=
  match override with
  | None => schema self
  | Some s => Some s
  end.

(** [if self.converter: datum = self.converter.to_dict(datum)] *)
Definition convert (self : AvroSerializer) (datum : Value) : M Value :=
  match converter self with
  | Some c => call (to_dict c datum)
  | None => ret datum
  end.

(** [_AvroProducerSerializer.serialize(schema, datum, ctx)].  The
    [with ContextStringIO() as fo] block gives [_encode] an empty buffer
    and returns what it holds afterwards; leaving the block closes the
    buffer and suppresses no exception. *)
Definition _AvroProducerSerializer_serialize (self : AvroSerializer)
  (schema : option Schema) (datum : option Value)
  (ctx : SerializationContext) : M (option bytes) :=
  match datum with
  | None => ret None
  | Some d =>
      let schema := effective_schema self schema in
      datum <- convert self d ;;
      out <- _encode self schema datum ctx ;;
      ret (Some out)
  end.

(** *** [AvroConsumer] *)

Record AvroConsumer : Type := mkAvroConsumer {
  consumer_key_serializer : AvroSerializer;
  consumer_value_serializer : AvroSerializer
}.

(** The registry client both constructors end up with. *)
Definition resolve_registry (sr_conf : dict)
  (schema_registry : option Registry) : M Registry :=
  match schema_registry with
  | None =>
      tick (EvRegistryClient sr_conf) ;;
      call (CachedSchemaRegistryClient sr_conf)
  | Some r =>
      if has_url sr_conf
      then raise (ValueError
        "Cannot pass schema_registry along with schema.registry.url config")
      else ret r
  end.

(** [AvroConsumer.__init__] *)
Definition AvroConsumer_init (config : dict)
  (schema_registry : option Registry)
  (reader_key_schema reader_value_schema : option Schema)
  : M AvroConsumer :=
  let sr_conf := sr_conf_of config in
  let sr_conf := inherit_sasl config sr_conf in
  let ap_conf := ap_conf_of config in
  schema_registry <- resolve_registry sr_conf schema_registry ;;
  let key_serializer :=
    mkAvroSerializer schema_registry None reader_key_schema None in
  let value_serializer :=
    mkAvroSerializer schema_registry None reader_value_schema None in
  tick (EvTransportInit ap_conf) ;;
  call (Consumer_init ap_conf) ;;
  ret (mkAvroConsumer key_serializer value_serializer).

Definition deserialization_failed (message : Message) (e : SerializerArg)
  : exn :=
  SerializerError (ArgText
    ("Message deserialization failed for message at "
     ++ msg_topic message ++ " [" ++ str_of_int (msg_partition message)
     ++ "] offset " ++ str_of_int (msg_offset message) ++ ": "
     ++ arg_text e)).

(** [AvroConsumer.poll] *)
Definition AvroConsumer_poll (self : AvroConsumer) (timeout : float)
  : M (option Message) :=
  tick EvPoll ;;
  message <- call (Consumer_poll timeout) ;;
  match message with
  | None => ret None
  | Some message =>
      match msg_error message with
      | Some _ => ret (Some message)
      | None =>
          except_SerializerError
            (tick (EvDeserialize VALUE) ;;
             v <- AvroSerializer_deserialize (consumer_value_serializer self)
                    (msg_value message) None ;;
             let message1 := set_value message v in
             tick (EvDeserialize KEY) ;;
             k <- AvroSerializer_deserialize (consumer_key_serializer self)
                    (msg_key message1) None ;;
             ret (Some (set_key message1 k)))
            (fun e => raise (deserialization_failed message e))
      end
  end.

(** *** [AvroProducer] *)

Record AvroProducer : Type := mkAvroProducer {
  producer_key_serializer : AvroSerializer;
  producer_value_serializer : AvroSerializer
}.

(** [AvroProducer.__init__] *)
Definition AvroProducer_init (config : dict)
  (default_key_schema default_value_schema : option Schema)
  (schema_registry : option Registry) : M AvroProducer :=
  let sr_conf := sr_conf_of config in
  let sr_conf := inherit_sasl config sr_conf in
  let ap_conf := ap_conf_of config in
  schema_registry <- resolve_registry sr_conf schema_registry ;;
  let key_serializer :=
    mkAvroSerializer schema_registry default_key_schema None None in
  let value_serializer :=
    mkAvroSerializer schema_registry default_value_schema None None in
  tick (EvTransportInit ap_conf) ;;
  call (Producer_init ap_conf) ;;
  ret (mkAvroProducer key_serializer value_serializer).

(** The keyword arguments of [produce]: the four it pops, each [None]
    when absent, and the rest, handed on to [Producer.produce]. *)
Record Kwargs : Type := mkKwargs {
  kw_key : option Value;
  kw_value : option Value;
  kw_key_schema : option Schema;
  kw_value_schema : option Schema;
  kw_rest : Extra
}.

(** [AvroProducer.produce] *)
Definition AvroProducer_produce (self : AvroProducer) (topic : string)
  (kwargs : Kwargs) : M unit :=
  let key := kw_key kwargs in
  let value := kw_value kwargs in
  let key_schema := kw_key_schema kwargs in
  let value_schema := kw_value_schema kwargs in
  let ctx := mkCtx topic KEY in
  key <- except_SerializerError
           (tick (EvSerialize KEY) ;;
            _AvroProducerSerializer_serialize (producer_key_serializer self)
              key_schema key ctx)
           (fun m => raise (KeySerializerError m)) ;;
  let ctx := mkCtx (ctx_topic ctx) VALUE in
  value <- except_SerializerError
             (tick (EvSerialize VALUE) ;;
              _AvroProducerSerializer_serialize
                (producer_value_serializer self) value_schema value ctx)
             (fun m => raise (ValueSerializerError m)) ;;
  tick (EvSend topic value key) ;;
  call (Producer_produce topic value key (kw_rest kwargs)).
End Avro.

Arguments mkState {Schema World} world trace.
Arguments world {Schema World} s.
Arguments trace {Schema World} s.
Arguments EvSerialize {Schema} field.
Arguments EvDeserialize {Schema} field.
Arguments EvEncode {Schema} schema ctx.
Arguments EvSend {Schema} topic value key.
Arguments EvPoll {Schema}.
Arguments EvRegistryClient {Schema} conf.
Arguments EvTransportInit {Schema} conf.
Arguments ret {Schema World A} a _.
Arguments raise {Schema World A} e _.
Arguments bindM {Schema World A B} m k _.
Arguments except_SerializerError {Schema World A} m h _.
Arguments tick {Schema World} ev _.
Arguments call {Schema World A} f _.
Arguments mkMessage {Value KafkaError}.
Arguments msg_topic {Value KafkaError} m.
Arguments msg_partition {Value KafkaError} m.
Arguments msg_offset {Value KafkaError} m.
Arguments msg_key {Value KafkaError} m.
Arguments msg_value {Value KafkaError} m.
Arguments msg_error {Value KafkaError} m.
Arguments set_value {Value KafkaError} m v.
Arguments set_key {Value KafkaError} m k.
Arguments mkAvroSerializer {Schema Registry Converter}.
Arguments registry_client {Schema Registry Converter} a.
Arguments schema {Schema Registry Converter} a.
Arguments reader_schema {Schema Registry Converter} a.
Arguments converter {Schema Registry Converter} a.
Arguments _encode {Schema Value Registry Converter World}
  encode_engine self schema datum ctx _.
Arguments AvroSerializer_deserialize {Schema Value Registry Converter World}
  decode_engine self data ctx _.
Arguments effective_schema {Schema Registry Converter} self override.
Arguments convert {Schema Value Registry Converter World} to_dict self datum _.
Arguments _AvroProducerSerializer_serialize {Schema Value Registry Converter World}
  encode_engine to_dict self schema datum ctx _.
Arguments mkAvroConsumer {Schema Registry Converter}.
Arguments consumer_key_serializer {Schema Registry Converter} a.
Arguments consumer_value_serializer {Schema Registry Converter} a.
Arguments resolve_registry {Schema Registry World}
  CachedSchemaRegistryClient sr_conf schema_registry _.
Arguments AvroConsumer_init {Schema Registry Converter World}
  CachedSchemaRegistryClient Consumer_init config schema_registry
  reader_key_schema reader_value_schema _.
Arguments deserialization_failed {Value KafkaError} message e.
Arguments AvroConsumer_poll {Schema Value Registry Converter KafkaError World}
  decode_engine Consumer_poll self timeout _.
Arguments mkAvroProducer {Schema Registry Converter}.
Arguments producer_key_serializer {Schema Registry Converter} a.
Arguments producer_value_serializer {Schema Registry Converter} a.
Arguments AvroProducer_init {Schema Registry Converter World}
  CachedSchemaRegistryClient Producer_init config default_key_schema
  default_value_schema schema_registry _.
Arguments mkKwargs {Schema Value Extra}.
Arguments kw_key {Schema Value Extra} k.
Arguments kw_value {Schema Value Extra} k.
Arguments kw_key_schema {Schema Value Extra} k.
Arguments kw_value_schema {Schema Value Extra} k.
Arguments kw_rest {Schema Value Extra} k.
Arguments AvroProducer_produce {Schema Value Registry Converter Extra World}
  encode_engine to_dict Producer_produce self topic kwargs _.

(** The transport sends of a trace, and its value-serializer calls. *)
Definition is_send {Schema : Type} (ev : Event Schema) : bool :=
  match ev with
  | EvSend _ _ _ => true
  | _ => false
  end.

Definition is_value_serialize {Schema : Type} (ev : Event Schema) : bool :=
  match ev with
  | EvSerialize VALUE => true
  | _ => false
  end.

Definition sends {Schema : Type} (t : list (Event Schema))
  : list (Event Schema) := filter is_send t.

Definition value_serializations {Schema : Type} (t : list (Event Schema))
  : list (Event Schema) := filter is_value_serialize t.

(** What a call of the encoding engine with schema [sch] leaves: the ghost
    event, the engine's world, and its output wrapped for [serialize]. *)
Definition encoded_with {Schema Value Registry World : Type}
  (encode_engine : Registry -> Schema -> Value -> SerializationContext ->
                   World -> Result bytes * World)
  (registry : Registry) (sch : Schema) (datum : Value)
  (ctx : SerializationContext) (st : State Schema World)
  : Result (option bytes) * State Schema World :=
  let (r, w) := encode_engine registry sch datum ctx (world st) in
  (some r, mkState w (trace st ++ [EvEncode sch ctx])).

(** What a constructor does when it is given no registry instance: build
    the registry client from [sr_conf], then the transport client from
    [ap_conf], then the object. *)
Definition built_from {Schema Registry World A : Type}
  (client_of : dict -> World -> Result Registry * World)
  (transport_init : dict -> World -> Result unit * World)
  (sr_conf ap_conf : dict) (make : Registry -> A) (st : State Schema World)
  : Result A * State Schema World :=
  match client_of sr_conf (world st) with
  | (Raise e, w) =>
      (Raise e, mkState w (trace st ++ [EvRegistryClient sr_conf]))
  | (Ok r, w) =>
      let t := trace st ++ [EvRegistryClient sr_conf; EvTransportInit ap_conf] in
      match transport_init ap_conf w with
      | (Raise e, w') => (Raise e, mkState w' t)
      | (Ok _, w') => (Ok (make r), mkState w' t)
      end
  end.

(** The registry configuration read off the words "the config keys whose
    names start with schema.registry, with that prefix removed": the
    leading ["schema.registry."] is dropped and the rest of the name is
    kept as it is. *)
Fixpoint behind_prefix (p s : string) : option string :=
  match p with
  | EmptyString => Some s
  | String a p' =>
      match s with
      | EmptyString => None
      | String b s' => if Ascii.eqb a b then behind_prefix p' s' else None
      end
  end.

Definition strip_prefix (p s : string) : string :=
  match behind_prefix p s with
  | Some rest => rest
  | None => s
  end.

Definition sr_conf_prefix_removed (config : dict) : dict :=
  dict_comprehension (strip_prefix "schema.registry.") is_sr_key config.

(** A key in which ["schema.registry."] occurs as its prefix at most: behind
    the prefix, [replace] finds nothing to take out. *)
Definition plain_key (k : string) : bool :=
  String.eqb
    (str_replace "schema.registry." "" (strip_prefix "schema.registry." k))
    (strip_prefix "schema.registry." k).

Definition plain_registry_keys (config : dict) : bool :=
  forallb (fun kv => implb (is_sr_key (fst kv)) (plain_key (fst kv))) config.

(** ** Stub collaborators

    A small closed world to run the wrappers in: schemas are their names,
    values are byte strings, the world is the queue of records the
    transport will deliver. *)
Module Stub.
Definition Schema : Type := string.
Definition Value : Type := bytes.
Definition Registry : Type := Z.
Definition Converter : Type := unit.
Definition Extra : Type := unit.
Definition KafkaError : Type := string.
Definition World : Type := list (Message Value KafkaError).

(** Frames the datum behind the magic byte and the registry's number;
    refuses the empty datum. *)
Definition encode_engine (r : Registry) (sch : Schema) (datum : Value)
  (ctx : SerializationContext) (w : World) : Result bytes * World :=
  match datum with
  | [] => (Raise (SerializerError (ArgText "nothing to encode")), w)
  | _ => (Ok (x00 :: be_bytes 4 r ++ datum), w)
  end.

Definition to_dict (c : Converter) (v : Value) (w : World)
  : Result Value * World := (Ok v, w).

(** Unframes: five bytes of header behind a zero magic byte. *)
Definition decode_engine (self : AvroSerializer Schema Registry Converter)
  (payload : Value) (w : World) : Result (option Value) * World :=
  match payload with
  | x00 :: _ :: _ :: _ :: _ :: body => (Ok (Some body), w)
  | _ => (Raise (SerializerError (ArgText "malformed wire payload")), w)
  end.

Definition Producer_produce (topic : string) (value key : option bytes)
  (rest : Extra) (w : World) : Result unit * World := (Ok tt, w).

Definition Consumer_poll (timeout : float) (w : World)
  : Result (option (Message Value KafkaError)) * World :=
  match w with
  | [] => (Ok None, [])
  | m :: r => (Ok (Some m), r)
  end.

Definition CachedSchemaRegistryClient (conf : dict) (w : World)
  : Result Registry * World := (Ok 1, w).

Definition Producer_init (conf : dict) (w : World) : Result unit * World :=
  (Ok tt, w).

Definition Consumer_init (conf : dict) (w : World) : Result unit * World :=
  (Ok tt, w).

Definition start (w : World) : State Schema World := mkState w [].

Definition serializer (default : option Schema)
  : AvroSerializer Schema Registry Converter :=
  mkAvroSerializer 1 default None None.

Definition producer : AvroProducer Schema Registry Converter :=
  mkAvroProducer (serializer (Some "key-schema"%string))
    (serializer (Some "value-schema"%string)).

Definition consumer : AvroConsumer Schema Registry Converter :=
  mkAvroConsumer (serializer None) (serializer None).

Definition record (key value : option Value) (error : option KafkaError)
  : Message Value KafkaError :=
  mkMessage "orders" 3 42 key value error.

Definition kwargs (key value : option Value) : Kwargs Schema Value Extra :=
  mkKwargs key value None None tt.

(** [{"bootstrap.servers": "broker:9092", "group.id": "readers",
      "schema.registry.url": None}] *)
Definition null_url_config : dict :=
  [("bootstrap.servers"%string, CStr "broker:9092");
   ("group.id"%string, CStr "readers");
   ("schema.registry.url"%string, CNone)].

(** [{"schema.registry.a.schema.registry.b": 1}] *)
Definition inner_prefix_config : dict :=
  [("schema.registry.a.schema.registry.b"%string, CInt 1)].

Definition url_config : dict :=
  [("schema.registry.url"%string, CStr "http://registry");
   ("bootstrap.servers"%string, CStr "broker:9092")].

Definition sasl_config : dict :=
  [("schema.registry.url"%string, CStr "http://registry");
   ("schema.registry.basic.auth.credentials.source"%string,
    CStr "SASL_INHERIT");
   ("sasl.username"%string, CStr "alice")].
End Stub.

(** ** Code points a codec can carry *)

(** A Unicode scalar value: a code point that is not a surrogate. *)
Definition scalar_value (c : Z) : bool :=
  (0 <=? c) && (c <=? 0x10FFFF) && negb (between 0xD800 0xDFFF c).

Definition encodable (codec : Codec) (c : Z) : bool :=
  match codec with
  | utf_8 => scalar_value c
  | ascii_codec => (0 <=? c) && (c <? 128)
  | latin_1 => (0 <=? c) && (c <? 256)
  end.

(** [isinstance(e, UnicodeError)] *)
Definition is_unicode_error (e : exn) : bool :=
  match e with
  | UnicodeDecodeError _ _ _ | UnicodeEncodeError _ _ _ => true
  | _ => false
  end.

(** * Properties *)

(** ** Bytes and big-endian layout *)

Lemma Z_of_byte_of_Z (z : Z) : Z_of_byte (byte_of_Z z) = z mod 256.
Proof.
  unfold Z_of_byte, byte_of_Z.
  assert (Hb : 0 <= z mod 256 < 256) by (apply Z.mod_pos_bound; lia).
  destruct (Byte.of_N (Z.to_N (z mod 256))) as [b|] eqn:E.
  - apply Byte.to_of_N in E. rewrite E. apply Z2N.id. lia.
  - apply Byte.of_N_None_iff in E. lia.
Qed.

Lemma be_bytes_length (n : nat) (z : Z) : List.length (be_bytes n z) = n.
Proof.
  induction n as [|k IH]; simpl; [reflexivity | now rewrite IH].
Qed.

Lemma fold_be_bytes (n : nat) (z acc : Z) :
  fold_left (fun a b => a * 256 + Z_of_byte b) (be_bytes n z) acc
  = acc * 2 ^ (8 * Z.of_nat n) + z mod 2 ^ (8 * Z.of_nat n).
Proof.
  revert acc. induction n as [|k IH]; intro acc.
  - simpl. rewrite Z.mod_1_r. lia.
  - cbn [be_bytes fold_left]. rewrite IH, Z_of_byte_of_Z.
    rewrite Z.shiftr_div_pow2 by lia.
    replace (8 * Z.of_nat (S k)) with (8 * Z.of_nat k + 8) by lia.
    rewrite Z.pow_add_r by lia.
    change (2 ^ 8) with 256.
    assert (Hp : 0 < 2 ^ (8 * Z.of_nat k)) by (apply Z.pow_pos_nonneg; lia).
    rewrite (Z.rem_mul_r z (2 ^ (8 * Z.of_nat k)) 256) by lia.
    ring.
Qed.

Lemma be_value_be_bytes (n : nat) (z : Z) :
  be_value (be_bytes n z) = z mod 2 ^ (8 * Z.of_nat n).
Proof.
  unfold be_value. rewrite fold_be_bytes. lia.
Qed.

(** ** [struct.pack] then [struct.unpack] on the integer formats *)

Lemma in_range_bounds (f : int_format) (v : Z) :
  in_range f v = true <-> fmt_min f <= v <= fmt_max f.
Proof.
  unfold in_range. rewrite andb_true_iff, !Z.leb_le. tauto.
Qed.

Lemma twos_complement_back (w v : Z) :
  0 < w -> - 2 ^ (w - 1) <= v <= 2 ^ (w - 1) - 1 ->
  (if v mod 2 ^ w <? 2 ^ (w - 1) then v mod 2 ^ w else v mod 2 ^ w - 2 ^ w)
  = v.
Proof.
  intros Hw Hv.
  assert (Hp : 0 < 2 ^ (w - 1)) by (apply Z.pow_pos_nonneg; lia).
  assert (H2 : 2 ^ w = 2 * 2 ^ (w - 1)).
  { replace w with (1 + (w - 1)) at 1 by lia.
    rewrite Z.pow_add_r by lia. reflexivity. }
  destruct (Z.neg_nonneg_cases v) as [Hn|Hn].
  - assert (E : v mod 2 ^ w = v + 2 ^ w).
    { symmetry. apply (Z.mod_unique_pos _ _ (-1)); lia. }
    rewrite E. destruct (Z.ltb_spec (v + 2 ^ w) (2 ^ (w - 1))); lia.
  - rewrite Z.mod_small by lia.
    destruct (Z.ltb_spec v (2 ^ (w - 1))); lia.
Qed.

Lemma struct_pack_int_ok (f : int_format) (v : Z) :
  in_range f v = true ->
  struct_pack_int f v = Ok (be_bytes (fmt_width f) (v mod 2 ^ fmt_bits f)).
Proof.
  intro H. unfold struct_pack_int. now rewrite H.
Qed.

Lemma struct_unpack_pack_int (f : int_format) (v : Z) :
  (0 < fmt_width f)%nat -> in_range f v = true ->
  struct_unpack_int f (be_bytes (fmt_width f) (v mod 2 ^ fmt_bits f)) = Ok v.
Proof.
  intros Hw Hr. apply in_range_bounds in Hr.
  unfold fmt_min, fmt_max in Hr.
  unfold struct_unpack_int.
  rewrite be_bytes_length, Nat.eqb_refl, be_value_be_bytes.
  fold (fmt_bits f). cbv zeta.
  rewrite Z.mod_mod by (apply Z.pow_nonzero; unfold fmt_bits; lia).
  rewrite twos_complement_back; [reflexivity | unfold fmt_bits; lia | exact Hr].
Qed.

Lemma struct_unpack_int_bad_length (f : int_format) (data : bytes) :
  List.length data <> fmt_width f ->
  struct_unpack_int f data
  = Raise (struct_error (unpack_size_message (fmt_width f))).
Proof.
  intro H. unfold struct_unpack_int.
  destruct (Nat.eqb_spec (List.length data) (fmt_width f)); congruence.
Qed.

Lemma in_range_h (v : Z) : in_range fmt_h v = true <-> - 2 ^ 15 <= v < 2 ^ 15.
Proof.
  rewrite in_range_bounds. unfold fmt_min, fmt_max, fmt_bits. simpl. lia.
Qed.

Lemma in_range_i (v : Z) : in_range fmt_i v = true <-> - 2 ^ 31 <= v < 2 ^ 31.
Proof.
  rewrite in_range_bounds. unfold fmt_min, fmt_max, fmt_bits. simpl. lia.
Qed.

Lemma in_range_q (v : Z) : in_range fmt_q v = true <-> - 2 ^ 63 <= v < 2 ^ 63.
Proof.
  rewrite in_range_bounds. unfold fmt_min, fmt_max, fmt_bits. simpl. lia.
Qed.

(** Packing an in-range integer never reaches the [except] clause, whatever
    the handler is, and gives exactly the format's width. *)
Lemma guarded_pack_ok (f : int_format) (v : Z)
  (h : string -> Result (option bytes)) :
  in_range f v = true ->
  except_struct_error (some (struct_pack_int f v)) h
  = Ok (Some (be_bytes (fmt_width f) (v mod 2 ^ fmt_bits f))).
Proof.
  intro H. now rewrite (struct_pack_int_ok f v H).
Qed.

Lemma guarded_unpack_ok (f : int_format) (v : Z)
  (h : string -> Result (option Z)) :
  (0 < fmt_width f)%nat -> in_range f v = true ->
  except_struct_error
    (some (struct_unpack_int f (be_bytes (fmt_width f) (v mod 2 ^ fmt_bits f))))
    h
  = Ok (Some v).
Proof.
  intros Hw H. now rewrite (struct_unpack_pack_int f v Hw H).
Qed.

(** ** C3: round trip of the integer codecs *)

(** Claim C3.  For every integer [v] representable in the codec's width
    ([-2^15 <= v < 2^15] for [ShortSerializer], [-2^31 <= v < 2^31] for
    [IntegerSerializer], [-2^63 <= v < 2^63] for [LongSerializer]), under
    either interpreter line and every context,
    [deserialize(serialize(v, ctx), ctx) == v]. *)
Theorem integer_codecs_round_trip (py : PyVersion) (ctx : Ctx) (v : Z) :
  (- 2 ^ 15 <= v < 2 ^ 15 ->
   bind (ShortSerializer.serialize py (Some v) ctx)
        (fun d => ShortSerializer.deserialize d ctx) = Ok (Some v)) /\
  (- 2 ^ 31 <= v < 2 ^ 31 ->
   bind (IntegerSerializer.serialize py (Some v) ctx)
        (fun d => IntegerSerializer.deserialize py d ctx) = Ok (Some v)) /\
  (- 2 ^ 63 <= v < 2 ^ 63 ->
   bind (LongSerializer.serialize (Some v) ctx)
        (fun d => LongSerializer.deserialize d ctx) = Ok (Some v)).
Proof.
  repeat split; intro H.
  - apply in_range_h in H.
    unfold ShortSerializer.serialize, ShortSerializer.deserialize.
    rewrite guarded_pack_ok by exact H. cbn [bind].
    apply guarded_unpack_ok; [cbn; lia | exact H].
  - apply in_range_i in H.
    unfold IntegerSerializer.serialize, IntegerSerializer.deserialize.
    rewrite guarded_pack_ok by exact H. cbn [bind].
    apply guarded_unpack_ok; [cbn; lia | exact H].
  - apply in_range_q in H.
    unfold LongSerializer.serialize, LongSerializer.deserialize.
    rewrite guarded_pack_ok by exact H. cbn [bind].
    apply guarded_unpack_ok; [cbn; lia | exact H].
Qed.

Lemma integer_codecs_round_trip_witness :
  bind (ShortSerializer.serialize Py3 (Some (-32768)) None)
       (fun d => ShortSerializer.deserialize d None) = Ok (Some (-32768))
  /\ bind (IntegerSerializer.serialize Py3 (Some 2147483647) None)
          (fun d => IntegerSerializer.deserialize Py3 d None)
     = Ok (Some 2147483647)
  /\ bind (LongSerializer.serialize (Some (-1)) None)
          (fun d => LongSerializer.deserialize d None) = Ok (Some (-1)).
Proof.
  split; [| split].
  - apply (integer_codecs_round_trip Py3 None (-32768)). simpl. lia.
  - apply (integer_codecs_round_trip Py3 None 2147483647). simpl. lia.
  - apply (integer_codecs_round_trip Py3 None (-1)). simpl. lia.
Defined.

(** ** C8: exact widths *)

(** Claim C8.  For every in-range input the serialized length is exact:
    [ShortSerializer] 2 bytes, [IntegerSerializer] 4, [FloatSerializer] 4
    (in range: the double does not overflow binary32), [LongSerializer] 8
    and [DoubleSerializer] 8 (every double is in range). *)
Theorem serialize_exact_width (py : PyVersion) (ctx : Ctx) :
  (forall v, - 2 ^ 15 <= v < 2 ^ 15 ->
     exists b, ShortSerializer.serialize py (Some v) ctx = Ok (Some b)
               /\ List.length b = 2%nat) /\
  (forall v, - 2 ^ 31 <= v < 2 ^ 31 ->
     exists b, IntegerSerializer.serialize py (Some v) ctx = Ok (Some b)
               /\ List.length b = 4%nat) /\
  (forall x, fits_single x = true ->
     exists b, FloatSerializer.serialize (Some x) ctx = Ok (Some b)
               /\ List.length b = 4%nat) /\
  (forall v, - 2 ^ 63 <= v < 2 ^ 63 ->
     exists b, LongSerializer.serialize (Some v) ctx = Ok (Some b)
               /\ List.length b = 8%nat) /\
  (forall x,
     exists b, DoubleSerializer.serialize (Some x) ctx = Ok (Some b)
               /\ List.length b = 8%nat).
Proof.
  repeat split.
  - intros v H. apply in_range_h in H. eexists. split.
    + unfold ShortSerializer.serialize. apply guarded_pack_ok, H.
    + apply be_bytes_length.
  - intros v H. apply in_range_i in H. eexists. split.
    + unfold IntegerSerializer.serialize. apply guarded_pack_ok, H.
    + apply be_bytes_length.
  - intros x H. eexists. split.
    + unfold FloatSerializer.serialize, struct_pack_f. rewrite H. reflexivity.
    + apply be_bytes_length.
  - intros v H. apply in_range_q in H. eexists. split.
    + unfold LongSerializer.serialize. apply guarded_pack_ok, H.
    + apply be_bytes_length.
  - intro x. eexists. split.
    + reflexivity.
    + apply be_bytes_length.
Qed.

Lemma serialize_exact_width_witness :
  (exists b, ShortSerializer.serialize Py3 (Some 258) None = Ok (Some b)
             /\ List.length b = 2%nat)
  /\ (exists b, IntegerSerializer.serialize Py3 (Some (-2)) None = Ok (Some b)
                /\ List.length b = 4%nat)
  /\ (exists b, FloatSerializer.serialize (Some 1.5%float) None = Ok (Some b)
                /\ List.length b = 4%nat)
  /\ (exists b, LongSerializer.serialize (Some 9223372036854775807) None
                = Ok (Some b)
                /\ List.length b = 8%nat).
Proof.
  destruct (serialize_exact_width Py3 None) as (Hh & Hi & Hf & Hq & _).
  split; [| split; [| split]].
  - apply Hh. simpl. lia.
  - apply Hi. simpl. lia.
  - apply Hf. vm_compute. reflexivity.
  - apply Hq. simpl. lia.
Defined.

(** ** C2: what malformed input raises *)

(** The codecs that write [raise SerializerError(e)] do wrap a length
    mismatch, on either interpreter line. *)
Lemma wrapped_length_mismatch (ctx : Ctx) (data : bytes) :
  (List.length data <> 2%nat ->
   exists m, ShortSerializer.deserialize (Some data) ctx
             = Raise (SerializerError (ArgStructError m))) /\
  (List.length data <> 8%nat ->
   exists m, LongSerializer.deserialize (Some data) ctx
             = Raise (SerializerError (ArgStructError m))) /\
  (List.length data <> 4%nat ->
   exists m, FloatSerializer.deserialize (Some data) ctx
             = Raise (SerializerError (ArgStructError m))) /\
  (List.length data <> 8%nat ->
   exists m, DoubleSerializer.deserialize (Some data) ctx
             = Raise (SerializerError (ArgStructError m))).
Proof.
  repeat split; intro H; eexists.
  - unfold ShortSerializer.deserialize.
    rewrite struct_unpack_int_bad_length by exact H. reflexivity.
  - unfold LongSerializer.deserialize.
    rewrite struct_unpack_int_bad_length by exact H. reflexivity.
  - unfold FloatSerializer.deserialize, struct_unpack_f.
    destruct (Nat.eqb_spec (List.length data) 4); [contradiction|reflexivity].
  - unfold DoubleSerializer.deserialize, struct_unpack_d.
    destruct (Nat.eqb_spec (List.length data) 8); [contradiction|reflexivity].
Qed.

(** [StringSerializer.deserialize] never wraps a decoding failure: its
    [except struct.error] clause does not catch [UnicodeDecodeError]. *)
Lemma string_decode_error_escapes (py : PyVersion) (codec : Codec)
  (data : bytes) (ctx : Ctx) (c : string) (pos : nat) (reason : string) :
  bytes_decode codec data = Raise (UnicodeDecodeError c pos reason) ->
  StringSerializer.deserialize py codec (Some data) ctx
  = Raise (UnicodeDecodeError c pos reason).
Proof.
  intro H. unfold StringSerializer.deserialize. rewrite H. reflexivity.
Qed.

(** Claim C2, at the inputs where the code departs from it.  The byte
    [0xFF] is not valid UTF-8: [StringSerializer().deserialize(b'\xff', ctx)]
    raises [UnicodeDecodeError], not a [SerializerError], on either
    interpreter line.  A one-byte buffer is not four bytes long: on Python 3
    [IntegerSerializer().deserialize(b'\x00', ctx)] raises [AttributeError]
    out of its own handler, where [e.message] does not exist. *)
Theorem deserialize_malformed_escapes (ctx : Ctx) :
  (forall py,
     StringSerializer.deserialize py StringSerializer.default_codec
       (Some [xff]) ctx
     = Raise (UnicodeDecodeError "utf-8" 0 "invalid start byte")) /\
  is_SerializerError (UnicodeDecodeError "utf-8" 0 "invalid start byte")
  = false /\
  IntegerSerializer.deserialize Py3 (Some [x00]) ctx
  = Raise (AttributeError "'error' object has no attribute 'message'") /\
  is_SerializerError
    (AttributeError "'error' object has no attribute 'message'") = false.
Proof.
  repeat split; intros; reflexivity.
Qed.

(** ** The Avro wrappers *)

Section AvroProperties.
Variables Schema Value Registry Converter Extra KafkaError World : Type.
Variable encode_engine :
  Registry -> Schema -> Value -> SerializationContext ->
  World -> Result bytes * World.
Variable to_dict : Converter -> Value -> World -> Result Value * World.
Variable decode_engine :
  AvroSerializer Schema Registry Converter -> Value ->
  World -> Result (option Value) * World.
Variable Producer_produce :
  string -> option bytes -> option bytes -> Extra ->
  World -> Result unit * World.
Variable Consumer_poll :
  float -> World -> Result (option (Message Value KafkaError)) * World.
Variable CachedSchemaRegistryClient :
  dict -> World -> Result Registry * World.
Variable Producer_init : dict -> World -> Result unit * World.
Variable Consumer_init : dict -> World -> Result unit * World.

Let St : Type := State Schema World.
Let Serializer : Type := AvroSerializer Schema Registry Converter.

(** *** Traces *)

Lemma call_trace {A : Type} (f : World -> Result A * World) (s : St)
  (r : Result A) (s' : St) :
  call f s = (r, s') -> trace s' = trace s.
Proof.
  unfold call. destruct (f (world s)) as [r0 w]. intro H.
  inversion H; subst. reflexivity.
Qed.

Lemma sends_app (t u : list (Event Schema)) :
  sends (t ++ u) = sends t ++ sends u.
Proof. apply filter_app. Qed.

Lemma value_serializations_app (t u : list (Event Schema)) :
  value_serializations (t ++ u)
  = value_serializations t ++ value_serializations u.
Proof. apply filter_app. Qed.

(** A serializer call adds at most the event of one engine call. *)
Lemma serialize_trace (self : Serializer) (sch : option Schema)
  (datum : option Value) (ctx : SerializationContext) (s : St)
  (r : Result (option bytes)) (s' : St) :
  _AvroProducerSerializer_serialize encode_engine to_dict self sch datum ctx s = (r, s') ->
  trace s' = trace s
  \/ exists used, trace s' = trace s ++ [EvEncode used ctx].
Proof.
  unfold _AvroProducerSerializer_serialize. destruct datum as [d|].
  - unfold bindM, convert.
    destruct (converter self) as [c|].
    + destruct (call (to_dict c d) s) as [[d'|e] s1] eqn:Ec.
      * apply call_trace in Ec.
        unfold _encode. destruct (effective_schema self sch) as [used|].
        -- unfold bindM, tick, call. cbn.
           destruct (encode_engine _ _ _ _ _) as [[out|e] w];
             intro H; inversion H; subst; cbn; right; exists used;
             now rewrite Ec.
        -- unfold raise. intro H; inversion H; subst. now left.
      * apply call_trace in Ec. intro H; inversion H; subst. now left.
    + unfold ret, _encode.
      destruct (effective_schema self sch) as [used|].
      * unfold bindM, tick, call. cbn.
        destruct (encode_engine _ _ _ _ _) as [[out|e] w];
          intro H; inversion H; subst; cbn; right; now exists used.
      * unfold raise. intro H; inversion H; subst. now left.
  - unfold ret. intro H; inversion H; subst. now left.
Qed.

Lemma serialize_keeps_sends (self : Serializer) (sch : option Schema)
  (datum : option Value) (ctx : SerializationContext) (s : St)
  (r : Result (option bytes)) (s' : St) :
  _AvroProducerSerializer_serialize encode_engine to_dict self sch datum ctx s = (r, s') ->
  sends (trace s') = sends (trace s)
  /\ value_serializations (trace s') = value_serializations (trace s).
Proof.
  intro H. apply serialize_trace in H. destruct H as [H|[used H]];
    rewrite H; [split; reflexivity|].
  rewrite sends_app, value_serializations_app. cbn.
  now rewrite !app_nil_r.
Qed.

(** *** C4: [None] in, [None] out *)

(** Claim C4.  Every serializer maps [None] to [None] in both
    directions, in every context and on either interpreter line, without
    raising: the six primitive codecs, and the Avro producer serializer,
    whose state is left as it was (no registry interaction, no framing,
    no event). *)
Theorem none_short_circuits (py : PyVersion) (codec : Codec) (ctx : Ctx)
  (self : Serializer) (sch : option Schema) (sctx : SerializationContext)
  (st : St) :
  (DoubleSerializer.serialize None ctx = Ok None
   /\ DoubleSerializer.deserialize None ctx = Ok None)
  /\ (FloatSerializer.serialize None ctx = Ok None
      /\ FloatSerializer.deserialize None ctx = Ok None)
  /\ (LongSerializer.serialize None ctx = Ok None
      /\ LongSerializer.deserialize None ctx = Ok None)
  /\ (IntegerSerializer.serialize py None ctx = Ok None
      /\ IntegerSerializer.deserialize py None ctx = Ok None)
  /\ (ShortSerializer.serialize py None ctx = Ok None
      /\ ShortSerializer.deserialize None ctx = Ok None)
  /\ (StringSerializer.serialize py codec None ctx = Ok None
      /\ StringSerializer.deserialize py codec None ctx = Ok None)
  /\ (_AvroProducerSerializer_serialize encode_engine to_dict self sch None sctx st = (Ok None, st)
      /\ AvroSerializer_deserialize decode_engine self None ctx st
         = (Ok None, st)).
Proof.
  repeat split; reflexivity.
Qed.

(** *** C7: which schema is used *)

(** Claim C7.  For a serializer as [AvroProducer.__init__] builds it
    (registry client and default schema bound, no converter) and a value
    that is not [None]: a per-call override is the schema handed to the
    engine for registration and encoding; without an override the bound
    default is; with neither, serialization fails with a configuration
    error and the state is untouched.  The two serializers of a
    constructed producer are of that form, bound to the two defaults. *)
Theorem schema_override_then_default (registry : Registry)
  (default : option Schema) (datum : Value) (ctx : SerializationContext)
  (st : St) :
  let self := mkAvroSerializer registry default None None in
  (forall override,
     _AvroProducerSerializer_serialize encode_engine to_dict self (Some override) (Some datum) ctx st
     = encoded_with encode_engine registry override datum ctx st)
  /\ (forall bound, default = Some bound ->
        _AvroProducerSerializer_serialize encode_engine to_dict self None (Some datum) ctx st
        = encoded_with encode_engine registry bound datum ctx st)
  /\ (default = None ->
        _AvroProducerSerializer_serialize encode_engine to_dict self None (Some datum) ctx st
        = (Raise (SerializationConfigError "no schema available"), st))
  /\ (forall config dk dv sr (s s' : St)
             (p : AvroProducer Schema Registry Converter),
        AvroProducer_init CachedSchemaRegistryClient Producer_init
          config dk dv sr s = (Ok p, s') ->
        exists r,
          producer_key_serializer p = mkAvroSerializer r dk None None
          /\ producer_value_serializer p = mkAvroSerializer r dv None None).
Proof.
  cbv zeta. repeat split.
  - intro override.
    unfold _AvroProducerSerializer_serialize, encoded_with, bindM, _encode, tick, call. cbn.
    destruct (encode_engine registry override datum ctx (world st))
      as [[out|e] w]; reflexivity.
  - intros bound ->.
    unfold _AvroProducerSerializer_serialize, encoded_with, bindM, _encode, tick, call. cbn.
    destruct (encode_engine registry bound datum ctx (world st))
      as [[out|e] w]; reflexivity.
  - intros ->. reflexivity.
  - intros config dk dv sr s s' p. unfold AvroProducer_init, bindM.
    destruct (resolve_registry CachedSchemaRegistryClient _ sr s)
      as [[r|e] s1]; [|discriminate].
    unfold tick, call, ret. cbn.
    destruct (Producer_init _ _) as [[[]|e] w]; [|discriminate].
    intro H; inversion H; subst. exists r. split; reflexivity.
Qed.
(** *** C1: key, then value, then the transport *)

Let key_call (self : AvroProducer Schema Registry Converter)
  (topic : string) (kwargs : Kwargs Schema Value Extra) (st : St)
  : Result (option bytes) * St :=
  _AvroProducerSerializer_serialize encode_engine to_dict (producer_key_serializer self)
    (kw_key_schema kwargs) (kw_key kwargs) (mkCtx topic KEY)
    (mkState (world st) (trace st ++ [EvSerialize KEY])).

Let value_call (self : AvroProducer Schema Registry Converter)
  (topic : string) (kwargs : Kwargs Schema Value Extra) (s1 : St)
  : Result (option bytes) * St :=
  _AvroProducerSerializer_serialize encode_engine to_dict (producer_value_serializer self)
    (kw_value_schema kwargs) (kw_value kwargs) (mkCtx topic VALUE)
    (mkState (world s1) (trace s1 ++ [EvSerialize VALUE])).

Let attributed (wrap : SerializerArg -> exn) (e : exn) : exn :=
  match SerializerError_message e with
  | Some m => wrap m
  | None => e
  end.

Lemma produce_unfold (self : AvroProducer Schema Registry Converter)
  (topic : string) (kwargs : Kwargs Schema Value Extra) (st : St) :
  AvroProducer_produce encode_engine to_dict Producer_produce self topic kwargs st
  = match key_call self topic kwargs st with
    | (Raise e, s1) => (Raise (attributed KeySerializerError e), s1)
    | (Ok key, s1) =>
        match value_call self topic kwargs s1 with
        | (Raise e, s2) => (Raise (attributed ValueSerializerError e), s2)
        | (Ok value, s2) =>
            call (Producer_produce topic value key (kw_rest kwargs))
              (mkState (world s2) (trace s2 ++ [EvSend topic value key]))
        end
    end.
Proof.
  unfold AvroProducer_produce, key_call, value_call, attributed.
  unfold bindM at 1. unfold except_SerializerError at 1.
  unfold bindM at 1. unfold tick at 1. cbn [ctx_topic].
  destruct (_AvroProducerSerializer_serialize encode_engine to_dict (producer_key_serializer self)
              _ _ _ _) as [[key|e] s1].
  - unfold bindM at 1. unfold except_SerializerError at 1.
    unfold bindM at 1. unfold tick at 1.
    destruct (_AvroProducerSerializer_serialize encode_engine to_dict
                (producer_value_serializer self) _ _ _ _) as [[value|e] s2].
    + reflexivity.
    + destruct (SerializerError_message e); reflexivity.
  - destruct (SerializerError_message e); reflexivity.
Qed.

Lemma sends_snoc_serialize (t : list (Event Schema)) (f : MessageField) :
  sends (t ++ [EvSerialize f]) = sends t.
Proof. rewrite sends_app. cbn. apply app_nil_r. Qed.

(** Claim C1.  In every call of [AvroProducer.produce] the first thing
    done is the key serialization.  If it raises a serializer error, a
    [KeySerializerError] with the same message is raised from the state
    that call left: no value serialization and no transport send has
    occurred.  If the key succeeds and the value serialization raises a
    serializer error, a [ValueSerializerError] is raised and no send has
    occurred.  If both succeed the transport is called with the two
    payloads; and a send in the trace implies that both succeeded. *)
Theorem produce_serializes_key_then_value_then_sends
  (self : AvroProducer Schema Registry Converter) (topic : string)
  (kwargs : Kwargs Schema Value Extra) (st : St) :
  (forall r st',
     AvroProducer_produce encode_engine to_dict Producer_produce self topic kwargs st
     = (r, st') ->
     exists evs, trace st' = trace st ++ EvSerialize KEY :: evs)
  /\ (forall e m s1,
        key_call self topic kwargs st = (Raise e, s1) ->
        SerializerError_message e = Some m ->
        AvroProducer_produce encode_engine to_dict Producer_produce self topic kwargs st
        = (Raise (KeySerializerError m), s1)
        /\ value_serializations (trace s1)
           = value_serializations (trace st)
        /\ sends (trace s1) = sends (trace st))
  /\ (forall key s1 e m s2,
        key_call self topic kwargs st = (Ok key, s1) ->
        value_call self topic kwargs s1 = (Raise e, s2) ->
        SerializerError_message e = Some m ->
        AvroProducer_produce encode_engine to_dict Producer_produce self topic kwargs st
        = (Raise (ValueSerializerError m), s2)
        /\ sends (trace s2) = sends (trace st))
  /\ (forall key s1 value s2,
        key_call self topic kwargs st = (Ok key, s1) ->
        value_call self topic kwargs s1 = (Ok value, s2) ->
        AvroProducer_produce encode_engine to_dict Producer_produce self topic kwargs st
        = call (Producer_produce topic value key (kw_rest kwargs))
            (mkState (world s2) (trace s2 ++ [EvSend topic value key])))
  /\ (forall r st',
        AvroProducer_produce encode_engine to_dict Producer_produce self topic kwargs st
        = (r, st') ->
        sends (trace st') <> sends (trace st) ->
        exists key s1 value s2,
          key_call self topic kwargs st = (Ok key, s1)
          /\ value_call self topic kwargs s1 = (Ok value, s2)).
Proof.
  assert (Hkey : forall r s1, key_call self topic kwargs st = (r, s1) ->
            (exists evs, trace s1 = trace st ++ EvSerialize KEY :: evs)
            /\ value_serializations (trace s1)
               = value_serializations (trace st)
            /\ sends (trace s1) = sends (trace st)).
  { intros r s1 H. unfold key_call in H.
    pose proof (serialize_keeps_sends _ _ _ _ _ _ _ H) as [Hs Hv].
    cbn [trace] in Hs, Hv.
    rewrite sends_snoc_serialize in Hs.
    rewrite value_serializations_app in Hv. cbn in Hv.
    rewrite app_nil_r in Hv.
    split; [|split; assumption].
    apply serialize_trace in H. cbn [trace] in H.
    destruct H as [H|[used H]]; rewrite H, <- ?app_assoc; cbn;
      eexists; reflexivity. }
  assert (Hval : forall r s1 s2, value_call self topic kwargs s1 = (r, s2) ->
            (exists evs, trace s2 = trace s1 ++ evs)
            /\ sends (trace s2) = sends (trace s1)).
  { intros r s1 s2 H. unfold value_call in H.
    pose proof (serialize_keeps_sends _ _ _ _ _ _ _ H) as [Hs _].
    cbn [trace] in Hs. rewrite sends_snoc_serialize in Hs.
    split; [|assumption].
    apply serialize_trace in H. cbn [trace] in H.
    destruct H as [H|[used H]]; rewrite H, <- ?app_assoc;
      eexists; reflexivity. }
  repeat split.
  - intros r st'. rewrite produce_unfold.
    destruct (key_call self topic kwargs st) as [[key|e] s1] eqn:Ek.
    + destruct (Hkey _ _ eq_refl) as [[evs Hevs] _].
      destruct (value_call self topic kwargs s1) as [[value|e] s2] eqn:Ev.
      * destruct (Hval _ _ _ Ev) as [[evs2 Hevs2] _].
        intro H. apply call_trace in H. cbn [trace] in H.
        rewrite H, Hevs2, Hevs, <- !app_assoc. cbn.
        eexists; reflexivity.
      * destruct (Hval _ _ _ Ev) as [[evs2 Hevs2] _].
        intro H; inversion H; subst.
        rewrite Hevs2, Hevs, <- !app_assoc. cbn. eexists; reflexivity.
    + destruct (Hkey _ _ eq_refl) as [Hevs _].
      intro H; inversion H; subst. exact Hevs.
  - rewrite produce_unfold, H. unfold attributed. now rewrite H0.
  - apply (Hkey _ _ H).
  - apply (Hkey _ _ H).
  - rewrite produce_unfold, H, H0. unfold attributed. now rewrite H1.
  - destruct (Hkey _ _ H) as (_ & _ & Hs).
    destruct (Hval _ _ _ H0) as [_ Hs2]. congruence.
  - intros key s1 value s2 Hk Hv. now rewrite produce_unfold, Hk, Hv.
  - intros r st'. rewrite produce_unfold.
    destruct (key_call self topic kwargs st) as [[key|e] s1] eqn:Ek.
    + destruct (Hkey _ _ eq_refl) as (_ & _ & Hs).
      destruct (value_call self topic kwargs s1) as [[value|e] s2] eqn:Ev.
      * intros _ _. now exists key, s1, value, s2.
      * destruct (Hval _ _ _ Ev) as [_ Hs2].
        intros H Hne; inversion H; subst. congruence.
    + destruct (Hkey _ _ eq_refl) as (_ & _ & Hs).
      intros H Hne; inversion H; subst. congruence.
Qed.
(** *** C5 and C6: [AvroConsumer.poll] *)

Lemma poll_unfold (self : AvroConsumer Schema Registry Converter)
  (timeout : float) (st : St) :
  AvroConsumer_poll decode_engine Consumer_poll self timeout st
  = match Consumer_poll timeout (world st) with
    | (Raise e, w) => (Raise e, mkState w (trace st ++ [EvPoll]))
    | (Ok None, w) => (Ok None, mkState w (trace st ++ [EvPoll]))
    | (Ok (Some message), w) =>
        let s0 := mkState w (trace st ++ [EvPoll]) in
        match msg_error message with
        | Some _ => (Ok (Some message), s0)
        | None =>
            except_SerializerError
              (bindM (tick (EvDeserialize VALUE)) (fun _ =>
               bindM (AvroSerializer_deserialize decode_engine
                        (consumer_value_serializer self)
                        (msg_value message) None) (fun v =>
               bindM (tick (EvDeserialize KEY)) (fun _ =>
               bindM (AvroSerializer_deserialize decode_engine
                        (consumer_key_serializer self)
                        (msg_key (set_value message v)) None) (fun k =>
               ret (Some (set_key (set_value message v) k)))))))
              (fun e => raise (deserialization_failed message e)) s0
        end
    end.
Proof.
  unfold AvroConsumer_poll. unfold bindM at 1. unfold tick at 1.
  unfold bindM at 1. unfold call at 1. cbn [world trace].
  destruct (Consumer_poll timeout (world st)) as [[[message|]|e] w];
    try reflexivity.
  destruct (msg_error message); reflexivity.
Qed.

(** Claim C5.  When the transport hands [poll] a record whose [error()]
    is set, [poll] returns that very record, from the state the transport
    left: no deserializer was called, no key or value replaced, nothing
    raised.  When the transport hands it no record, [poll] returns
    [None]. *)
Theorem poll_returns_error_record_untouched
  (self : AvroConsumer Schema Registry Converter) (timeout : float)
  (st : St) :
  (forall message err w,
     Consumer_poll timeout (world st) = (Ok (Some message), w) ->
     msg_error message = Some err ->
     AvroConsumer_poll decode_engine Consumer_poll self timeout st
     = (Ok (Some message), mkState w (trace st ++ [EvPoll])))
  /\ (forall w,
        Consumer_poll timeout (world st) = (Ok None, w) ->
        AvroConsumer_poll decode_engine Consumer_poll self timeout st
        = (Ok None, mkState w (trace st ++ [EvPoll]))).
Proof.
  split.
  - intros message err w Hp He. rewrite poll_unfold, Hp. cbv zeta.
    now rewrite He.
  - intros w Hp. now rewrite poll_unfold, Hp.
Qed.

(** Claim C6.  For a polled record with no transport error: if
    deserializing its value raises a serializer error, or its value
    deserializes and its key then raises one, [poll] raises one
    [SerializerError] whose message is ["Message deserialization failed
    for message at <topic> [<partition>] offset <offset>: <cause>"], with
    the record's topic, partition and offset and the text of the
    underlying error. *)
Theorem poll_reports_failed_record
  (self : AvroConsumer Schema Registry Converter) (timeout : float)
  (st : St) (message : Message Value KafkaError) (w : World) :
  Consumer_poll timeout (world st) = (Ok (Some message), w) ->
  msg_error message = None ->
  let report := fun cause : SerializerArg =>
    SerializerError (ArgText
      ("Message deserialization failed for message at "
       ++ msg_topic message ++ " [" ++ str_of_int (msg_partition message)
       ++ "] offset " ++ str_of_int (msg_offset message) ++ ": "
       ++ arg_text cause)) in
  let s1 : St := mkState w (trace st ++ [EvPoll; EvDeserialize VALUE]) in
  (forall e cause s2,
     AvroSerializer_deserialize decode_engine
       (consumer_value_serializer self) (msg_value message) None s1
     = (Raise e, s2) ->
     SerializerError_message e = Some cause ->
     AvroConsumer_poll decode_engine Consumer_poll self timeout st
     = (Raise (report cause), s2))
  /\ (forall v s2 e cause s3,
        AvroSerializer_deserialize decode_engine
          (consumer_value_serializer self) (msg_value message) None s1
        = (Ok v, s2) ->
        AvroSerializer_deserialize decode_engine
          (consumer_key_serializer self) (msg_key message) None
          (mkState (world s2) (trace s2 ++ [EvDeserialize KEY]))
        = (Raise e, s3) ->
        SerializerError_message e = Some cause ->
        AvroConsumer_poll decode_engine Consumer_poll self timeout st
        = (Raise (report cause), s3)).
Proof.
  intros Hp He report s1. split.
  - intros e cause s2 Hv Hm. rewrite poll_unfold, Hp. cbv zeta.
    rewrite He. unfold except_SerializerError.
    unfold bindM at 1. unfold tick at 1. cbn [world trace].
    rewrite <- app_assoc. cbn [app]. fold s1.
    unfold bindM at 1. rewrite Hv, Hm. reflexivity.
  - intros v s2 e cause s3 Hv Hk Hm. rewrite poll_unfold, Hp. cbv zeta.
    rewrite He. unfold except_SerializerError.
    unfold bindM at 1. unfold tick at 1. cbn [world trace].
    rewrite <- app_assoc. cbn [app]. fold s1.
    unfold bindM at 1. rewrite Hv.
    unfold bindM at 1. unfold tick at 1.
    unfold bindM at 1. cbn [msg_key set_value].
    rewrite Hk, Hm. reflexivity.
Qed.
End AvroProperties.

(** ** Configuration dictionaries *)

Lemma dict_get_set_same (d : dict) (k : string) (v : ConfValue) :
  dict_get (dict_set d k v) k = Some v.
Proof.
  induction d as [|[k' v'] r IH]; cbn.
  - now rewrite String.eqb_refl.
  - destruct (String.eqb k' k) eqn:E; cbn; rewrite E; [reflexivity|exact IH].
Qed.

Lemma dict_get_set_other (d : dict) (k k' : string) (v : ConfValue) :
  k <> k' -> dict_get (dict_set d k v) k' = dict_get d k'.
Proof.
  intro Hne. induction d as [|[k0 v0] r IH]; cbn.
  - destruct (String.eqb_spec k k'); [contradiction|reflexivity].
  - destruct (String.eqb_spec k0 k) as [->|Hk]; cbn.
    + destruct (String.eqb_spec k k'); [contradiction|reflexivity].
    + destruct (String.eqb k0 k'); [reflexivity|exact IH].
Qed.

Lemma dict_get_snoc (d : dict) (k k' : string) (v : ConfValue) :
  dict_get (d ++ [(k, v)]) k'
  = match dict_get d k' with
    | Some x => Some x
    | None => if String.eqb k k' then Some v else None
    end.
Proof.
  induction d as [|[k0 v0] r IH]; cbn; [reflexivity|].
  destruct (String.eqb k0 k'); [reflexivity|exact IH].
Qed.

Lemma dict_set_fresh (d : dict) (k : string) (v : ConfValue) :
  ~ In k (map fst d) -> dict_set d k v = d ++ [(k, v)].
Proof.
  induction d as [|[k0 v0] r IH]; cbn; intro H; [reflexivity|].
  destruct (String.eqb_spec k0 k) as [->|Hk]; [tauto|].
  rewrite IH by tauto. reflexivity.
Qed.

(** A key of a comprehension holds the value assigned to it last. *)
Lemma dict_comprehension_get (key_of : string -> string)
  (keep : string -> bool) (d : dict) (k : string) :
  dict_get (dict_comprehension key_of keep d) k
  = dict_get (rev (assigned key_of keep d)) k.
Proof.
  unfold dict_comprehension.
  assert (G : forall acc,
    dict_get
      (fold_left
         (fun acc kv => if keep (fst kv)
                        then dict_set acc (key_of (fst kv)) (snd kv)
                        else acc) d acc) k
    = match dict_get (rev (assigned key_of keep d)) k with
      | Some v => Some v
      | None => dict_get acc k
      end).
  { induction d as [|[k0 v0] r IH]; intro acc; [reflexivity|].
    cbn [fold_left fst snd]. rewrite IH. unfold assigned. cbn [filter fst].
    destruct (keep k0); [|reflexivity].
    cbn [map rev fst snd]. rewrite dict_get_snoc.
    fold (assigned key_of keep r).
    destruct (dict_get (rev (assigned key_of keep r)) k); [reflexivity|].
    destruct (String.eqb_spec (key_of k0) k) as [<-|Hne].
    - apply dict_get_set_same.
    - now apply dict_get_set_other. }
  rewrite G.
  destruct (dict_get (rev (assigned key_of keep d)) k); reflexivity.
Qed.

(** With the keys kept as they are, a comprehension over a well-formed
    dictionary is a filter. *)
Lemma dict_comprehension_filter (keep : string -> bool) (d : dict) :
  NoDup (map fst d) ->
  dict_comprehension (fun k => k) keep d = filter (fun kv => keep (fst kv)) d.
Proof.
  unfold dict_comprehension.
  assert (G : forall acc,
    NoDup (map fst d) ->
    (forall k, In k (map fst acc) -> ~ In k (map fst d)) ->
    fold_left
      (fun acc kv => if keep (fst kv) then dict_set acc (fst kv) (snd kv)
                     else acc) d acc
    = acc ++ filter (fun kv => keep (fst kv)) d).
  { induction d as [|[k0 v0] r IH]; intros acc Hnd Hfresh.
    - cbn. now rewrite app_nil_r.
    - cbn [fold_left filter fst snd]. cbn [map fst] in Hnd, Hfresh.
      inversion Hnd as [|? ? Hk0 Hr]; subst.
      destruct (keep k0).
      + rewrite dict_set_fresh.
        * rewrite IH; [now rewrite <- app_assoc | exact Hr |].
          intros k Hin. rewrite map_app, in_app_iff in Hin. cbn in Hin.
          destruct Hin as [Hin|[<-|[]]]; [|exact Hk0].
          intro Hk. apply (Hfresh k Hin). now right.
        * intro Hin. apply (Hfresh k0 Hin). now left.
      + apply IH; [exact Hr|].
        intros k Hin Hk. apply (Hfresh k Hin). now right. }
  intro Hnd. rewrite (G [] Hnd); [reflexivity|].
  intros k [].
Qed.

Lemma dict_get_filter_kept (keep : string -> bool) (d : dict) (k : string) :
  keep k = true ->
  dict_get (filter (fun kv => keep (fst kv)) d) k = dict_get d k.
Proof.
  intro Hk. induction d as [|[k0 v0] r IH]; [reflexivity|].
  cbn [filter fst]. destruct (keep k0) eqn:E; cbn.
  - destruct (String.eqb k0 k); [reflexivity|exact IH].
  - destruct (String.eqb_spec k0 k) as [->|]; [congruence|exact IH].
Qed.

(** ** [str.replace] on a registry key *)

(** A key ["schema.registry.<rest>"] loses its prefix, and whatever
    [replace] takes out of [<rest>]. *)
Lemma str_replace_registry_prefix (rest : string) :
  str_replace "schema.registry." "" ("schema.registry." ++ rest)
  = str_replace "schema.registry." "" rest.
Proof.
  unfold str_replace. cbn. destruct rest; reflexivity.
Qed.

Lemma behind_prefix_app (p s rest : string) :
  behind_prefix p s = Some rest -> s = (p ++ rest)%string.
Proof.
  revert s. induction p as [|a p IH]; intros s H; cbn in H.
  - now inversion H.
  - destruct s as [|b s]; [discriminate|].
    destruct (Ascii.eqb_spec a b) as [->|]; [|discriminate].
    cbn. f_equal. now apply IH.
Qed.

(** On a plain key [replace] does what removing the prefix does. *)
Lemma str_replace_plain_key (k : string) :
  plain_key k = true ->
  str_replace "schema.registry." "" k = strip_prefix "schema.registry." k.
Proof.
  unfold plain_key, strip_prefix. intro H. apply String.eqb_eq in H.
  destruct (behind_prefix "schema.registry." k) as [rest|] eqn:E.
  - apply behind_prefix_app in E. subst k.
    now rewrite str_replace_registry_prefix.
  - exact H.
Qed.

Lemma dict_comprehension_ext (f g : string -> string)
  (keep : string -> bool) (d : dict) :
  (forall kv, In kv d -> keep (fst kv) = true -> f (fst kv) = g (fst kv)) ->
  dict_comprehension f keep d = dict_comprehension g keep d.
Proof.
  unfold dict_comprehension. generalize (@nil (string * ConfValue)).
  induction d as [|kv r IH]; intros acc H; [reflexivity|].
  cbn [fold_left]. destruct (keep (fst kv)) eqn:E.
  - rewrite (H kv (or_introl eq_refl) E).
    apply IH. intros kv' Hin. apply H. now right.
  - apply IH. intros kv' Hin. apply H. now right.
Qed.

Lemma sr_conf_of_plain (config : dict) :
  plain_registry_keys config = true ->
  sr_conf_of config = sr_conf_prefix_removed config.
Proof.
  unfold plain_registry_keys. rewrite forallb_forall. intro H.
  apply dict_comprehension_ext. intros kv Hin Hk.
  apply str_replace_plain_key.
  specialize (H kv Hin). now rewrite Hk in H.
Qed.

Lemma dict_get_absent (d : dict) (k : string) :
  ~ In k (map fst d) -> dict_get d k = None.
Proof.
  induction d as [|[k0 v0] r IH]; cbn; intro H; [reflexivity|].
  destruct (String.eqb_spec k0 k); [tauto|]. apply IH. tauto.
Qed.

(** When exactly the key [k'] of a well-formed dictionary is renamed to
    [k], the comprehension holds under [k] what the dictionary holds under
    [k']. *)
Lemma dict_comprehension_get_renamed (f : string -> string)
  (keep : string -> bool) (d : dict) (k k' : string) :
  NoDup (map fst d) ->
  keep k' = true ->
  (forall k0, In k0 (map fst d) -> keep k0 = true -> (f k0 = k <-> k0 = k')) ->
  dict_get (dict_comprehension f keep d) k = dict_get d k'.
Proof.
  intros Hnd Hk' Hf. rewrite dict_comprehension_get.
  induction d as [|[k0 v0] r IH]; [reflexivity|].
  cbn [map fst] in Hnd, Hf. inversion Hnd as [|? ? Hk0 Hr]; subst.
  assert (IH' : dict_get (rev (assigned f keep r)) k = dict_get r k').
  { apply IH; [exact Hr|]. intros k1 Hin. apply Hf. now right. }
  unfold assigned. cbn [filter fst dict_get].
  fold (assigned f keep r).
  destruct (String.eqb_spec k0 k') as [->|Hne].
  - rewrite Hk'. cbn [map rev fst snd]. rewrite dict_get_snoc.
    fold (assigned f keep r). rewrite IH'.
    rewrite (dict_get_absent r k' Hk0).
    assert (E : f k' = k) by (apply Hf; [now left|exact Hk'|reflexivity]).
    rewrite E, String.eqb_refl. reflexivity.
  - destruct (keep k0) eqn:Ek; [|exact IH'].
    cbn [map rev fst snd]. rewrite dict_get_snoc.
    fold (assigned f keep r). rewrite IH'.
    destruct (dict_get r k'); [reflexivity|].
    destruct (String.eqb_spec (f k0) k) as [E|]; [|reflexivity].
    apply Hf in E; [contradiction|now left|exact Ek].
Qed.

Lemma behind_prefix_self (p rest : string) :
  behind_prefix p (p ++ rest) = Some rest.
Proof.
  induction p as [|a p IH]; cbn; [reflexivity|].
  now rewrite Ascii.eqb_refl.
Qed.

(** In a well-formed configuration with plain registry keys, the registry
    part holds under [k] what [config] holds under
    ["schema.registry." ++ k]. *)
Lemma sr_conf_get_under_prefix (config : dict) (k : string) :
  NoDup (map fst config) ->
  plain_registry_keys config = true ->
  is_sr_key k = false ->
  dict_get (sr_conf_of config) k
  = dict_get config ("schema.registry." ++ k).
Proof.
  intros Hnd Hplain Hk. rewrite (sr_conf_of_plain config Hplain).
  apply dict_comprehension_get_renamed; [exact Hnd|reflexivity|].
  intros k0 _ Hk0. unfold strip_prefix.
  destruct (behind_prefix "schema.registry." k0) as [rest|] eqn:E.
  - apply behind_prefix_app in E. subst k0. split.
    + now intros ->.
    + intro H. apply (f_equal (behind_prefix "schema.registry.")) in H.
      rewrite !behind_prefix_self in H. now inversion H.
  - split.
    + intros ->. congruence.
    + intros ->. now rewrite behind_prefix_self in E.
Qed.

(** ** The constructors *)

Lemma inherit_sasl_get_other (config d : dict) (k : string) :
  k <> "sasl.mechanisms"%string -> k <> "sasl.username"%string ->
  k <> "sasl.password"%string ->
  dict_get (inherit_sasl config d) k = dict_get d k.
Proof.
  intros H1 H2 H3. unfold inherit_sasl.
  destruct (is_SASL_INHERIT _); [|reflexivity].
  cbv zeta. rewrite !dict_get_set_other by congruence. reflexivity.
Qed.

Lemma has_url_inherit_sasl (config d : dict) :
  has_url (inherit_sasl config d) = has_url d.
Proof.
  unfold has_url. rewrite inherit_sasl_get_other by discriminate.
  reflexivity.
Qed.

Lemma is_SASL_INHERIT_iff (v : option ConfValue) :
  is_SASL_INHERIT v = true <-> v = Some (CStr "SASL_INHERIT").
Proof.
  unfold is_SASL_INHERIT. destruct v as [[]|]; split; try discriminate.
  - intro H. apply String.eqb_eq in H. now subst.
  - intro H. inversion H. apply String.eqb_refl.
Qed.

Section ConstructorProperties.
Variables Schema Registry Converter World : Type.
Variable CachedSchemaRegistryClient :
  dict -> World -> Result Registry * World.
Variable Producer_init : dict -> World -> Result unit * World.
Variable Consumer_init : dict -> World -> Result unit * World.

Let St : Type := State Schema World.

Let make_producer (dk dv : option Schema) (r : Registry)
  : AvroProducer Schema Registry Converter :=
  mkAvroProducer (mkAvroSerializer r dk None None)
    (mkAvroSerializer r dv None None).

Let make_consumer (rk rv : option Schema) (r : Registry)
  : AvroConsumer Schema Registry Converter :=
  mkAvroConsumer (mkAvroSerializer r None rk None)
    (mkAvroSerializer r None rv None).

Lemma AvroProducer_init_without_instance (config : dict)
  (dk dv : option Schema) (st : St) :
  AvroProducer_init CachedSchemaRegistryClient Producer_init config dk dv
    None st
  = built_from CachedSchemaRegistryClient Producer_init
      (inherit_sasl config (sr_conf_of config)) (ap_conf_of config)
      (make_producer dk dv) st.
Proof.
  unfold AvroProducer_init, built_from, resolve_registry, bindM, tick, call,
    ret. cbn [world trace].
  destruct (CachedSchemaRegistryClient _ _) as [[r|e] w]; [|reflexivity].
  cbn [world trace]. rewrite <- app_assoc. cbn [app].
  destruct (Producer_init _ _) as [[[]|e] w']; reflexivity.
Qed.

Lemma AvroConsumer_init_without_instance (config : dict)
  (rk rv : option Schema) (st : St) :
  AvroConsumer_init CachedSchemaRegistryClient Consumer_init config None
    rk rv st
  = built_from CachedSchemaRegistryClient Consumer_init
      (inherit_sasl config (sr_conf_of config)) (ap_conf_of config)
      (make_consumer rk rv) st.
Proof.
  unfold AvroConsumer_init, built_from, resolve_registry, bindM, tick, call,
    ret. cbn [world trace].
  destruct (CachedSchemaRegistryClient _ _) as [[r|e] w]; [|reflexivity].
  cbn [world trace]. rewrite <- app_assoc. cbn [app].
  destruct (Consumer_init _ _) as [[[]|e] w']; reflexivity.
Qed.

(** *** C9: [SASL_INHERIT] *)

(** Claim C9.  When the registry configuration (the keys under the
    schema-registry prefix, prefix removed) has
    ["basic.auth.credentials.source"] equal to ['SASL_INHERIT'], it
    receives [sasl.mechanisms], [sasl.username] and [sasl.password] with
    the values [config] has for them, the empty string for one [config]
    lacks; those are the values of the transport configuration;
    and [AvroProducer] and [AvroConsumer] alike build their registry
    client from that configuration.  In a well-formed [config] with plain
    registry keys the entry tested is the one [config] holds under
    ["schema.registry.basic.auth.credentials.source"]. *)
Theorem sasl_inherit_copies_credentials (config : dict) :
  dict_get (sr_conf_of config) "basic.auth.credentials.source"
  = Some (CStr "SASL_INHERIT") ->
  let sr_conf := inherit_sasl config (sr_conf_of config) in
  let copied := fun k : string =>
    dict_get sr_conf k
    = Some match dict_get config k with
           | Some v => v
           | None => CStr ""
           end in
  (copied "sasl.mechanisms"%string /\ copied "sasl.username"%string
   /\ copied "sasl.password"%string)
  /\ (NoDup (map fst config) ->
      forall k, In k ["sasl.mechanisms"; "sasl.username"; "sasl.password"]%string ->
                dict_get (ap_conf_of config) k = dict_get config k)
  /\ (forall dk dv (st : St),
        AvroProducer_init CachedSchemaRegistryClient Producer_init config
          dk dv None st
        = built_from CachedSchemaRegistryClient Producer_init sr_conf
            (ap_conf_of config) (make_producer dk dv) st)
  /\ (forall rk rv (st : St),
        AvroConsumer_init CachedSchemaRegistryClient Consumer_init config
          None rk rv st
        = built_from CachedSchemaRegistryClient Consumer_init sr_conf
            (ap_conf_of config) (make_consumer rk rv) st)
  /\ (NoDup (map fst config) -> plain_registry_keys config = true ->
      dict_get config "schema.registry.basic.auth.credentials.source"
      = Some (CStr "SASL_INHERIT")).
Proof.
  intros Hget sr_conf copied. subst sr_conf copied. cbv beta.
  pose proof (proj2 (is_SASL_INHERIT_iff _) Hget) as H.
  repeat split.
  - unfold inherit_sasl. rewrite H. cbv zeta.
    rewrite !dict_get_set_other by discriminate.
    now rewrite dict_get_set_same.
  - unfold inherit_sasl. rewrite H. cbv zeta.
    rewrite !dict_get_set_other by discriminate.
    now rewrite dict_get_set_same.
  - unfold inherit_sasl. rewrite H. cbv zeta.
    now rewrite dict_get_set_same.
  - intros Hnd k Hk. unfold ap_conf_of.
    rewrite dict_comprehension_filter by exact Hnd.
    apply (dict_get_filter_kept (fun k => negb (is_sr_key k))).
    cbn in Hk. destruct Hk as [<-|[<-|[<-|[]]]]; reflexivity.
  - intros. apply AvroProducer_init_without_instance.
  - intros. apply AvroConsumer_init_without_instance.
  - intros Hnd Hplain.
    rewrite <- Hget. symmetry.
    now apply (sr_conf_get_under_prefix config
                 "basic.auth.credentials.source").
Qed.

(** *** C10: how the constructors split [config] *)

Let refused : exn :=
  ValueError
    "Cannot pass schema_registry along with schema.registry.url config".

(** Claim C10, as amended.  [AvroProducer] and [AvroConsumer] alike:
    given a registry instance and a configuration whose registry part has
    a ["url"] other than [None], they raise [ValueError] before touching
    anything; given no instance, they build the registry client from the
    registry part (with the [SASL_INHERIT] entries, if any) and the
    transport client from the rest.  When ["schema.registry."] occurs in
    the registry keys as their prefix only, the registry part is the keys
    that start with ["schema.registry"], that prefix removed.  The rest is
    every other entry of a well-formed [config], unchanged and in
    order. *)
Theorem constructors_split_config (config : dict)
  (dk dv rk rv : option Schema) (st : St) :
  let sr_conf := inherit_sasl config (sr_conf_of config) in
  let ap_conf := ap_conf_of config in
  (forall instance v,
     dict_get (sr_conf_of config) "url" = Some v -> v <> CNone ->
     AvroProducer_init (Converter := Converter) CachedSchemaRegistryClient
       Producer_init config dk dv (Some instance) st
     = (Raise refused, st)
     /\ AvroConsumer_init (Converter := Converter)
          CachedSchemaRegistryClient Consumer_init config (Some instance)
          rk rv st
        = (Raise refused, st))
  /\ AvroProducer_init CachedSchemaRegistryClient Producer_init config
       dk dv None st
     = built_from CachedSchemaRegistryClient Producer_init sr_conf ap_conf
         (make_producer dk dv) st
  /\ AvroConsumer_init CachedSchemaRegistryClient Consumer_init config
       None rk rv st
     = built_from CachedSchemaRegistryClient Consumer_init sr_conf ap_conf
         (make_consumer rk rv) st
  /\ (plain_registry_keys config = true ->
      sr_conf_of config = sr_conf_prefix_removed config)
  /\ (NoDup (map fst config) ->
      ap_conf = filter (fun kv => negb (is_sr_key (fst kv))) config).
Proof.
  cbv zeta. repeat split.
  - unfold AvroProducer_init, resolve_registry, bindM.
    rewrite has_url_inherit_sasl. unfold has_url. rewrite H.
    destruct v; [contradiction|reflexivity..].
  - unfold AvroConsumer_init, resolve_registry, bindM.
    rewrite has_url_inherit_sasl. unfold has_url. rewrite H.
    destruct v; [contradiction|reflexivity..].
  - apply AvroProducer_init_without_instance.
  - apply AvroConsumer_init_without_instance.
  - apply sr_conf_of_plain.
  - intro Hnd. unfold ap_conf_of. now apply dict_comprehension_filter.
Qed.
End ConstructorProperties.

(** ** The wrappers at work on the stub collaborators *)

Lemma produce_serializes_key_then_value_then_sends_witness :
  AvroProducer_produce Stub.encode_engine Stub.to_dict Stub.Producer_produce Stub.producer
    "orders" (Stub.kwargs (Some []) (Some [x02])) (Stub.start [])
  = (Raise (KeySerializerError (ArgText "nothing to encode")),
     mkState []
       [EvSerialize KEY; EvEncode "key-schema"%string (mkCtx "orders" KEY)])
  /\ AvroProducer_produce Stub.encode_engine Stub.to_dict Stub.Producer_produce
       Stub.producer "orders"%string (Stub.kwargs None (Some [])) (Stub.start [])
     = (Raise (ValueSerializerError (ArgText "nothing to encode")),
        mkState []
          [EvSerialize KEY; EvSerialize VALUE;
           EvEncode "value-schema"%string (mkCtx "orders" VALUE)]).
Proof.
  split.
  - destruct (produce_serializes_key_then_value_then_sends _ _ _ _ _ _
                Stub.encode_engine Stub.to_dict Stub.Producer_produce
                Stub.producer "orders"%string (Stub.kwargs (Some []) (Some [x02]))
                (Stub.start [])) as (_ & Hkey & _).
    apply (Hkey (SerializerError (ArgText "nothing to encode"))); reflexivity.
  - destruct (produce_serializes_key_then_value_then_sends _ _ _ _ _ _
                Stub.encode_engine Stub.to_dict Stub.Producer_produce
                Stub.producer "orders"%string (Stub.kwargs None (Some []))
                (Stub.start [])) as (_ & _ & Hvalue & _).
    apply (Hvalue None (mkState [] [EvSerialize KEY])
             (SerializerError (ArgText "nothing to encode")));
      reflexivity.
Defined.

Lemma schema_override_then_default_witness :
  _AvroProducerSerializer_serialize Stub.encode_engine Stub.to_dict
    (Stub.serializer (Some "value-schema"%string)) None (Some [x02])
    (mkCtx "orders" VALUE) (Stub.start [])
  = (Ok (Some [x00; x00; x00; x00; x01; x02]),
     mkState [] [EvEncode "value-schema"%string (mkCtx "orders" VALUE)])
  /\ _AvroProducerSerializer_serialize Stub.encode_engine Stub.to_dict (Stub.serializer None) None
       (Some [x02]) (mkCtx "orders" VALUE) (Stub.start [])
     = (Raise (SerializationConfigError "no schema available"), Stub.start []).
Proof.
  split.
  - destruct (schema_override_then_default _ _ _ _ _ Stub.encode_engine Stub.to_dict
                Stub.CachedSchemaRegistryClient Stub.Producer_init
                1 (Some "value-schema"%string) [x02] (mkCtx "orders" VALUE)
                (Stub.start [])) as (_ & Hdefault & _).
    apply (Hdefault "value-schema"%string). reflexivity.
  - destruct (schema_override_then_default _ _ _ _ _ Stub.encode_engine Stub.to_dict
                Stub.CachedSchemaRegistryClient Stub.Producer_init
                1 None [x02] (mkCtx "orders" VALUE)
                (Stub.start [])) as (_ & _ & Hnone & _).
    apply Hnone. reflexivity.
Defined.

Lemma poll_returns_error_record_untouched_witness :
  AvroConsumer_poll Stub.decode_engine Stub.Consumer_poll Stub.consumer (-1)%float
    (Stub.start [Stub.record None (Some [x01]) (Some "broker down"%string)])
  = (Ok (Some (Stub.record None (Some [x01]) (Some "broker down"%string))),
     mkState [] [EvPoll])
  /\ AvroConsumer_poll Stub.decode_engine Stub.Consumer_poll Stub.consumer (-1)%float
       (Stub.start [])
     = (Ok None, mkState [] [EvPoll]).
Proof.
  split.
  - destruct (poll_returns_error_record_untouched _ _ _ _ _ _
                Stub.decode_engine
                Stub.Consumer_poll Stub.consumer (-1)%float
                (Stub.start
                   [Stub.record None (Some [x01])
                      (Some "broker down"%string)])) as [Herr _].
    apply (Herr _ "broker down"%string); reflexivity.
  - destruct (poll_returns_error_record_untouched _ _ _ _ _ _
                Stub.decode_engine
                Stub.Consumer_poll Stub.consumer (-1)%float
                (Stub.start [])) as [_ Hnone].
    apply Hnone. reflexivity.
Defined.

Lemma poll_reports_failed_record_witness :
  AvroConsumer_poll Stub.decode_engine Stub.Consumer_poll Stub.consumer (-1)%float
    (Stub.start [Stub.record None (Some [x01]) None])
  = (Raise (SerializerError (ArgText
       "Message deserialization failed for message at orders [3] offset 42: malformed wire payload")),
     mkState [] [EvPoll; EvDeserialize VALUE]).
Proof.
  destruct (poll_reports_failed_record _ _ _ _ _ _
              Stub.decode_engine Stub.Consumer_poll
              Stub.consumer (-1)%float
              (Stub.start [Stub.record None (Some [x01]) None])
              (Stub.record None (Some [x01]) None) [] eq_refl eq_refl)
    as [Hvalue _].
  apply (Hvalue (SerializerError (ArgText "malformed wire payload"))
           (ArgText "malformed wire payload")); reflexivity.
Defined.

Lemma sasl_inherit_copies_credentials_witness :
  let sr_conf := inherit_sasl Stub.sasl_config (sr_conf_of Stub.sasl_config) in
  dict_get sr_conf "sasl.mechanisms" = Some (CStr "")
  /\ dict_get sr_conf "sasl.username" = Some (CStr "alice")
  /\ dict_get sr_conf "sasl.password" = Some (CStr "").
Proof.
  exact (proj1 (sasl_inherit_copies_credentials
                  Stub.Schema Stub.Registry Stub.Converter Stub.World
                  Stub.CachedSchemaRegistryClient Stub.Producer_init
                  Stub.Consumer_init Stub.sasl_config eq_refl)).
Defined.

Lemma url_config_well_formed : NoDup (map fst Stub.url_config).
Proof.
  repeat constructor; cbn; intuition discriminate.
Qed.

Lemma constructors_split_config_witness :
  AvroProducer_init (Converter := Stub.Converter)
    Stub.CachedSchemaRegistryClient Stub.Producer_init Stub.url_config
    None None (Some 7) (Stub.start [])
  = (Raise (ValueError
       "Cannot pass schema_registry along with schema.registry.url config"),
     Stub.start [])
  /\ sr_conf_of Stub.url_config = sr_conf_prefix_removed Stub.url_config
  /\ ap_conf_of Stub.url_config
     = [("bootstrap.servers"%string, CStr "broker:9092")].
Proof.
  destruct (constructors_split_config
              Stub.Schema Stub.Registry Stub.Converter Stub.World
              Stub.CachedSchemaRegistryClient Stub.Producer_init
              Stub.Consumer_init Stub.url_config None None None None
              (Stub.start [])) as (Hurl & _ & _ & Hplain & Hrest).
  split; [|split].
  - apply (Hurl 7 (CStr "http://registry")); [reflexivity|discriminate].
  - apply Hplain. reflexivity.
  - apply (Hrest url_config_well_formed).
Defined.

(** Claim C10 as it stands fails twice.  With ["schema.registry.url"] set
    to [None] the registry part does contain the key ["url"], and both
    constructors accept a registry instance next to it: no [ValueError].
    With [{"schema.registry.a.schema.registry.b": 1}] the registry client
    gets the key ["a.b"], not the name with its prefix removed,
    ["a.schema.registry.b"]. *)
Lemma null_url_accepted_and_inner_prefix_removed :
  (dict_get (sr_conf_of Stub.null_url_config) "url" <> None
   /\ (forall msg,
         fst (AvroProducer_init (Converter := Stub.Converter)
                Stub.CachedSchemaRegistryClient Stub.Producer_init
                Stub.null_url_config None None (Some 7) (Stub.start []))
         <> Raise (ValueError msg))
   /\ (forall msg,
         fst (AvroConsumer_init (Converter := Stub.Converter)
                Stub.CachedSchemaRegistryClient Stub.Consumer_init
                Stub.null_url_config (Some 7) None None (Stub.start []))
         <> Raise (ValueError msg)))
  /\ (sr_conf_of Stub.inner_prefix_config = [("a.b"%string, CInt 1)]
      /\ sr_conf_prefix_removed Stub.inner_prefix_config
         = [("a.schema.registry.b"%string, CInt 1)]
      /\ sr_conf_of Stub.inner_prefix_config
         <> sr_conf_prefix_removed Stub.inner_prefix_config).
Proof.
  repeat split; try discriminate; try reflexivity.
Qed.

(** * Further properties of the codecs *)

(** ** Every buffer of the right width is an integer *)

Lemma byte_of_Z_of_byte (b : byte) : byte_of_Z (Z_of_byte b) = b.
Proof.
  unfold byte_of_Z, Z_of_byte.
  pose proof (Byte.to_N_bounded b) as Hb.
  rewrite Z.mod_small by lia.
  rewrite N2Z.id, Byte.of_to_N. reflexivity.
Qed.

Lemma fold_be_value (bs : bytes) (acc : Z) :
  fold_left (fun a b => a * 256 + Z_of_byte b) bs acc
  = acc * 2 ^ (8 * Z.of_nat (List.length bs)) + be_value bs
  /\ 0 <= be_value bs < 2 ^ (8 * Z.of_nat (List.length bs)).
Proof.
  unfold be_value. revert acc.
  induction bs as [|b r IH]; intro acc.
  - cbn. lia.
  - cbn [fold_left List.length].
    destruct (IH (acc * 256 + Z_of_byte b)) as [E1 _].
    destruct (IH (0 * 256 + Z_of_byte b)) as [E2 Hr].
    rewrite E1, E2.
    replace (8 * Z.of_nat (S (List.length r)))
      with (8 + 8 * Z.of_nat (List.length r)) by lia.
    rewrite Z.pow_add_r by lia. change (2 ^ 8) with 256.
    pose proof (Byte.to_N_bounded b) as Hb. unfold Z_of_byte in *.
    assert (Hp : 0 < 2 ^ (8 * Z.of_nat (List.length r)))
      by (apply Z.pow_pos_nonneg; lia).
    split; [ring|]. nia.
Qed.

Lemma be_value_range (bs : bytes) :
  0 <= be_value bs < 2 ^ (8 * Z.of_nat (List.length bs)).
Proof. apply (fold_be_value bs 0). Qed.

Lemma be_value_cons (b : byte) (r : bytes) :
  be_value (b :: r)
  = Z_of_byte b * 2 ^ (8 * Z.of_nat (List.length r)) + be_value r.
Proof.
  unfold be_value at 1. cbn [fold_left].
  destruct (fold_be_value r (0 * 256 + Z_of_byte b)) as [E _].
  rewrite E. ring.
Qed.

(** The low [n] bytes do not see what lies above them. *)
Lemma be_bytes_above (n m : nat) (z c : Z) :
  (n <= m)%nat ->
  be_bytes n (c * 2 ^ (8 * Z.of_nat m) + z) = be_bytes n z.
Proof.
  induction n as [|k IH]; intro Hle; [reflexivity|].
  cbn [be_bytes]. rewrite IH by lia. f_equal.
  unfold byte_of_Z.
  rewrite !Z.shiftr_div_pow2 by lia.
  replace (8 * Z.of_nat m)
    with (8 * Z.of_nat k + (8 + 8 * Z.of_nat (m - S k))) by lia.
  rewrite Z.pow_add_r by lia.
  assert (Hp : 0 < 2 ^ (8 * Z.of_nat k)) by (apply Z.pow_pos_nonneg; lia).
  replace (c * (2 ^ (8 * Z.of_nat k) * 2 ^ (8 + 8 * Z.of_nat (m - S k))) + z)
    with (z + c * 2 ^ (8 + 8 * Z.of_nat (m - S k)) * 2 ^ (8 * Z.of_nat k))
    by ring.
  rewrite Z.div_add by lia.
  rewrite Z.pow_add_r by lia. change (2 ^ 8) with 256.
  replace (c * (256 * 2 ^ (8 * Z.of_nat (m - S k))))
    with (c * 2 ^ (8 * Z.of_nat (m - S k)) * 256) by ring.
  rewrite Z.mod_add by lia. reflexivity.
Qed.

Lemma be_bytes_be_value (bs : bytes) :
  be_bytes (List.length bs) (be_value bs) = bs.
Proof.
  induction bs as [|b r IH]; [reflexivity|].
  cbn [List.length be_bytes]. rewrite be_value_cons.
  rewrite be_bytes_above by lia. rewrite IH. f_equal.
  pose proof (be_value_range r) as Hr.
  assert (Hp : 0 < 2 ^ (8 * Z.of_nat (List.length r)))
    by (apply Z.pow_pos_nonneg; lia).
  rewrite Z.shiftr_div_pow2 by lia.
  rewrite Z.div_add_l by lia. rewrite Z.div_small by lia.
  rewrite Z.add_0_r. apply byte_of_Z_of_byte.
Qed.

Lemma struct_unpack_int_exact (f : int_format) (data : bytes) :
  (0 < fmt_width f)%nat -> List.length data = fmt_width f ->
  exists v, struct_unpack_int f data = Ok v
            /\ in_range f v = true
            /\ v mod 2 ^ fmt_bits f = be_value data.
Proof.
  intros Hw Hlen. unfold struct_unpack_int.
  rewrite Hlen, Nat.eqb_refl. cbv zeta.
  pose proof (be_value_range data) as Hr. rewrite Hlen in Hr.
  fold (fmt_bits f) in Hr.
  assert (Hb : 0 < fmt_bits f) by (unfold fmt_bits; lia).
  assert (Hp : 0 < 2 ^ (fmt_bits f - 1)) by (apply Z.pow_pos_nonneg; lia).
  assert (H2 : 2 ^ fmt_bits f = 2 * 2 ^ (fmt_bits f - 1)).
  { replace (fmt_bits f) with (1 + (fmt_bits f - 1)) at 1 by lia.
    rewrite Z.pow_add_r by lia. reflexivity. }
  eexists. split; [reflexivity|].
  rewrite in_range_bounds. unfold fmt_min, fmt_max.
  destruct (Z.ltb_spec (be_value data) (2 ^ (fmt_bits f - 1))).
  - split; [lia|]. apply Z.mod_small. lia.
  - split; [lia|]. symmetry.
    apply (Z.mod_unique_pos _ _ (-1)); lia.
Qed.

(** A buffer of exactly the codec's width always deserializes, to an
    integer of the codec's signed range, and serializing that integer gives
    the buffer back: with the round trip of the values, each integer codec
    is a bijection between its range and the byte strings of its width. *)
Theorem integer_buffers_round_trip (py : PyVersion) (ctx : Ctx)
  (data : bytes) :
  (List.length data = 2%nat ->
   exists v, ShortSerializer.deserialize (Some data) ctx = Ok (Some v)
             /\ - 2 ^ 15 <= v < 2 ^ 15
             /\ ShortSerializer.serialize py (Some v) ctx = Ok (Some data))
  /\ (List.length data = 4%nat ->
      exists v, IntegerSerializer.deserialize py (Some data) ctx = Ok (Some v)
                /\ - 2 ^ 31 <= v < 2 ^ 31
                /\ IntegerSerializer.serialize py (Some v) ctx
                   = Ok (Some data))
  /\ (List.length data = 8%nat ->
      exists v, LongSerializer.deserialize (Some data) ctx = Ok (Some v)
                /\ - 2 ^ 63 <= v < 2 ^ 63
                /\ LongSerializer.serialize (Some v) ctx = Ok (Some data)).
Proof.
  repeat split; intro Hlen.
  - destruct (struct_unpack_int_exact fmt_h data) as (v & Hu & Hr & Hm);
      [cbn; lia | exact Hlen |].
    exists v. unfold ShortSerializer.deserialize, ShortSerializer.serialize.
    rewrite Hu, guarded_pack_ok by exact Hr. rewrite Hm.
    change (fmt_width fmt_h) with 2%nat. rewrite <- Hlen, be_bytes_be_value.
    repeat split; try reflexivity; apply in_range_h in Hr; lia.
  - destruct (struct_unpack_int_exact fmt_i data) as (v & Hu & Hr & Hm);
      [cbn; lia | exact Hlen |].
    exists v.
    unfold IntegerSerializer.deserialize, IntegerSerializer.serialize.
    rewrite Hu, guarded_pack_ok by exact Hr. rewrite Hm.
    change (fmt_width fmt_i) with 4%nat. rewrite <- Hlen, be_bytes_be_value.
    repeat split; try reflexivity; apply in_range_i in Hr; lia.
  - destruct (struct_unpack_int_exact fmt_q data) as (v & Hu & Hr & Hm);
      [cbn; lia | exact Hlen |].
    exists v. unfold LongSerializer.deserialize, LongSerializer.serialize.
    rewrite Hu, guarded_pack_ok by exact Hr. rewrite Hm.
    change (fmt_width fmt_q) with 8%nat. rewrite <- Hlen, be_bytes_be_value.
    repeat split; try reflexivity; apply in_range_q in Hr; lia.
Qed.

Lemma integer_buffers_round_trip_witness :
  exists v, ShortSerializer.deserialize (Some [xff; xfe]) None = Ok (Some v)
            /\ - 2 ^ 15 <= v < 2 ^ 15
            /\ ShortSerializer.serialize Py3 (Some v) None
               = Ok (Some [xff; xfe]).
Proof.
  apply (integer_buffers_round_trip Py3 None [xff; xfe]). reflexivity.
Defined.

(** ** The integer serializers out of range *)

(** An integer outside the codec's signed range is never serialized, not
    even truncated.  [LongSerializer] raises a [SerializerError] holding the
    [struct.error]; [IntegerSerializer] and [ShortSerializer] build theirs
    from [e.message]: a [SerializerError] on Python 2, an [AttributeError]
    on Python 3. *)
Theorem integer_out_of_range_raises (ctx : Ctx) (v : Z) :
  (~ - 2 ^ 63 <= v < 2 ^ 63 ->
   exists m, LongSerializer.serialize (Some v) ctx
             = Raise (SerializerError (ArgStructError m)))
  /\ (~ - 2 ^ 31 <= v < 2 ^ 31 ->
      (exists m, IntegerSerializer.serialize Py2 (Some v) ctx
                 = Raise (SerializerError (ArgText m)))
      /\ exists m, IntegerSerializer.serialize Py3 (Some v) ctx
                   = Raise (AttributeError m))
  /\ (~ - 2 ^ 15 <= v < 2 ^ 15 ->
      (exists m, ShortSerializer.serialize Py2 (Some v) ctx
                 = Raise (SerializerError (ArgText m)))
      /\ exists m, ShortSerializer.serialize Py3 (Some v) ctx
                   = Raise (AttributeError m)).
Proof.
  split; [|split]; intro H.
  - rewrite <- in_range_q in H. apply not_true_is_false in H.
    unfold LongSerializer.serialize, struct_pack_int. rewrite H.
    eexists. reflexivity.
  - rewrite <- in_range_i in H. apply not_true_is_false in H.
    unfold IntegerSerializer.serialize, struct_pack_int. rewrite H.
    split; eexists; reflexivity.
  - rewrite <- in_range_h in H. apply not_true_is_false in H.
    unfold ShortSerializer.serialize, struct_pack_int. rewrite H.
    split; eexists; reflexivity.
Qed.

Lemma integer_out_of_range_raises_witness :
  exists m, LongSerializer.serialize (Some (2 ^ 63)) None
            = Raise (SerializerError (ArgStructError m)).
Proof.
  apply (integer_out_of_range_raises None (2 ^ 63)). simpl. lia.
Defined.

(** ** Floating-point round trips *)

Lemma digits2_pos_log2 (m : positive) :
  Zpos (digits2_pos m) = Z.log2 (Zpos m) + 1.
Proof.
  induction m as [m IH|m IH|]; cbn [digits2_pos].
  - rewrite Pos2Z.inj_succ, IH.
    change (Zpos m~1) with (2 * Zpos m + 1).
    rewrite Z.log2_succ_double by lia. lia.
  - rewrite Pos2Z.inj_succ, IH.
    change (Zpos m~0) with (2 * Zpos m).
    rewrite Z.log2_double by lia. lia.
  - reflexivity.
Qed.

Lemma digits2_pos_bounds (m : positive) :
  2 ^ (Zpos (digits2_pos m) - 1) <= Zpos m < 2 ^ Zpos (digits2_pos m).
Proof.
  rewrite digits2_pos_log2.
  replace (Z.log2 (Zpos m) + 1 - 1) with (Z.log2 (Zpos m)) by lia.
  pose proof (Z.log2_spec (Zpos m)) as H.
  replace (Z.succ (Z.log2 (Zpos m))) with (Z.log2 (Zpos m) + 1) in H by lia.
  apply H. lia.
Qed.

Ltac numerals :=
  change (2 ^ 64) with 18446744073709551616 in *;
  change (2 ^ 63) with 9223372036854775808 in *;
  change (2 ^ 52) with 4503599627370496 in *;
  change (2 ^ 51) with 2251799813685248 in *;
  change (2 ^ 32) with 4294967296 in *;
  change (2 ^ 31) with 2147483648 in *;
  change (2 ^ 23) with 8388608 in *;
  change (2 ^ 22) with 4194304 in *.

(** The three fields of a binary64 word. *)
Lemma binary64_fields (s : bool) (b f : Z) :
  0 <= b < 2048 -> 0 <= f < 2 ^ 52 ->
  let u := (if s then 2 ^ 63 else 0) + b * 2 ^ 52 + f in
  0 <= u < 2 ^ 64
  /\ Z.testbit u 63 = s
  /\ Z.land (Z.shiftr u 52) 2047 = b
  /\ Z.land u (2 ^ 52 - 1) = f.
Proof.
  intros Hb Hf u.
  assert (Hu : 0 <= u < 2 ^ 64) by (subst u; destruct s; lia).
  split; [exact Hu|]. split; [|split].
  - rewrite Z.testbit_odd, Z.shiftr_div_pow2 by lia.
    assert (E : u / 2 ^ 63 = if s then 1 else 0).
    { subst u. numerals. destruct s; Z.div_mod_to_equations; lia. }
    rewrite E. destruct s; reflexivity.
  - change 2047 with (Z.ones 11). rewrite Z.land_ones by lia.
    rewrite Z.shiftr_div_pow2 by lia. subst u. numerals.
    destruct s; Z.div_mod_to_equations; lia.
  - change (2 ^ 52 - 1) with (Z.ones 52). rewrite Z.land_ones by lia.
    subst u. numerals. destruct s; Z.div_mod_to_equations; lia.
Qed.

Lemma SF_of_bits_binary64 (u : Z) :
  SF_of_bits 53 1024 u
  = let s := Z.testbit u 63 in
    let biased := Z.land (Z.shiftr u 52) 2047 in
    let frac := Z.land u (2 ^ 52 - 1) in
    if biased =? 2047 then
      if frac =? 0 then S754_infinity s else S754_nan
    else if biased =? 0 then
      match frac with
      | Zpos m => S754_finite s m (-1074)
      | _ => S754_zero s
      end
    else
      match frac + 2 ^ 52 with
      | Zpos m => S754_finite s m (biased - 1 + -1074)
      | _ => S754_zero s
      end.
Proof. reflexivity. Qed.

Lemma bits_of_SF_binary64 (x : spec_float) :
  bits_of_SF 53 1024 x
  = match x with
    | S754_zero s => (if s then 2 ^ 63 else 0) + 0 * 2 ^ 52 + 0
    | S754_infinity s => (if s then 2 ^ 63 else 0) + 2047 * 2 ^ 52 + 0
    | S754_nan => (if false then 2 ^ 63 else 0) + 2047 * 2 ^ 52 + 2 ^ 51
    | S754_finite s m e =>
        if Zpos (digits2_pos m) =? 53
        then (if s then 2 ^ 63 else 0) + (e + 1075) * 2 ^ 52
             + (Zpos m - 2 ^ 52)
        else (if s then 2 ^ 63 else 0) + 0 * 2 ^ 52 + Zpos m
    end.
Proof.
  destruct x as [s|s| |s m e]; unfold bits_of_SF, sign_bit, exp_field;
    rewrite ?Z.shiftl_mul_pow2 by lia;
    change (53 - 1 + Z.log2 1024 + 1) with 63;
    change (53 - 1 - 1) with 51; change (53 - 1) with 52;
    change (2 * 1024 - 1) with 2047.
  - destruct s; lia.
  - destruct s; lia.
  - lia.
  - destruct (Zpos (digits2_pos m) =? 53); destruct s; lia.
Qed.

(** Laying a valid binary64 value out in 64 bits and reading the fields
    back gives the value. *)
Lemma SF_of_bits_of_SF_binary64 (x : spec_float) :
  SpecFloat.valid_binary 53 1024 x = true ->
  0 <= bits_of_SF 53 1024 x < 2 ^ 64
  /\ SF_of_bits 53 1024 (bits_of_SF 53 1024 x) = x.
Proof.
  intro Hv. rewrite SF_of_bits_binary64, bits_of_SF_binary64. cbv zeta.
  destruct x as [s|s| |s m e].
  - destruct (binary64_fields s 0 0) as (Hu & Ht & Hb & Hf); [lia|lia|].
    cbv zeta in *. rewrite Ht, Hb, Hf. split; [exact Hu|reflexivity].
  - destruct (binary64_fields s 2047 0) as (Hu & Ht & Hb & Hf); [lia|lia|].
    cbv zeta in *. rewrite Ht, Hb, Hf. split; [exact Hu|reflexivity].
  - destruct (binary64_fields false 2047 (2 ^ 51)) as (Hu & Ht & Hb & Hf);
      [lia|lia|].
    cbv zeta in *. rewrite Hb, Hf. split; [exact Hu|reflexivity].
  - cbn [SpecFloat.valid_binary] in Hv.
    unfold bounded, canonical_mantissa in Hv.
    apply andb_true_iff in Hv. destruct Hv as [Hc He].
    apply Z.eqb_eq in Hc. apply Z.leb_le in He.
    unfold fexp, SpecFloat.emin in Hc.
    pose proof (digits2_pos_bounds m) as Hm.
    destruct (Z.eqb_spec (Zpos (digits2_pos m)) 53) as [Hd|Hd].
    + rewrite Hd in Hm, Hc. change (2 ^ (53 - 1)) with (2 ^ 52) in Hm.
      change (2 ^ 53) with (2 * 2 ^ 52) in Hm.
      destruct (binary64_fields s (e + 1075) (Zpos m - 2 ^ 52))
        as (Hu & Ht & Hb & Hf); [lia|lia|].
      cbv zeta in *. rewrite Ht, Hb, Hf. split; [exact Hu|].
      destruct (Z.eqb_spec (e + 1075) 2047); [lia|].
      destruct (Z.eqb_spec (e + 1075) 0); [lia|].
      replace (Zpos m - 2 ^ 52 + 2 ^ 52) with (Zpos m) by lia.
      f_equal. lia.
    + assert (Hlt : Zpos (digits2_pos m) < 53) by lia.
      assert (He' : e = -1074) by lia.
      assert (Hm' : Zpos m < 2 ^ 52).
      { eapply Z.lt_le_trans; [apply Hm|].
        apply Z.pow_le_mono_r; lia. }
      destruct (binary64_fields s 0 (Zpos m))
        as (Hu & Ht & Hb & Hf); [lia|lia|].
      cbv zeta in *. rewrite Ht, Hb, Hf. split; [exact Hu|].
      cbn. now subst e.
Qed.

(** Every Python float survives [DoubleSerializer]: the eight bytes of
    [serialize] deserialize to the same double, zeros with their sign,
    infinities and the not-a-number included. *)
Theorem double_round_trip (x : float) (ctx : Ctx) :
  bind (DoubleSerializer.serialize (Some x) ctx)
       (fun d => DoubleSerializer.deserialize d ctx) = Ok (Some x).
Proof.
  unfold DoubleSerializer.serialize, DoubleSerializer.deserialize,
    struct_pack_d, struct_unpack_d. cbn [some bind except_struct_error].
  rewrite be_bytes_length. cbn [Nat.eqb some bind except_struct_error].
  rewrite be_value_be_bytes.
  destruct (SF_of_bits_of_SF_binary64 (Prim2SF x) (Prim2SF_valid x))
    as [Hr Hs].
  change (2 ^ (8 * Z.of_nat 8)) with (2 ^ 64).
  rewrite Z.mod_small by exact Hr. rewrite Hs, SF2Prim_Prim2SF. reflexivity.
Qed.

(** ** Text round trip *)

Ltac by_division := Z.div_mod_to_equations; lia.

Ltac settle_tests :=
  repeat match goal with
  | |- context [?a <? ?b] => destruct (Z.ltb_spec a b); try by_division
  | |- context [?a <=? ?b] => destruct (Z.leb_spec a b); try by_division
  | |- context [?a =? ?b] => destruct (Z.eqb_spec a b); try by_division
  end.

(** The units [utf8_encode_point] gives for a scalar value are bytes, and
    the decoder reads the scalar value back from them. *)
Lemma utf8_decode_encode_point (c : Z) (pos : nat) (rest : list Z) :
  scalar_value c = true ->
  exists units,
    utf8_encode_point c = Some units
    /\ Forall (fun u => 0 <= u < 256) units
    /\ exists pos', utf8_decode pos (units ++ rest)
                    = cons_ok c (utf8_decode pos' rest).
Proof.
  unfold scalar_value, between. rewrite !andb_true_iff, negb_true_iff.
  rewrite andb_false_iff, !Z.leb_le, !Z.leb_gt. intros [[H0 H1] Hs].
  unfold utf8_encode_point, between.
  destruct (Z.ltb_spec c 0x80); [|destruct (Z.ltb_spec c 0x800);
    [|destruct (Z.ltb_spec c 0x10000)]].
  - eexists. split; [reflexivity|]. split; [repeat constructor; lia|].
    eexists. cbn [app utf8_decode]. settle_tests. reflexivity.
  - eexists. split; [reflexivity|].
    split; [repeat constructor; by_division|].
    eexists. cbn [app utf8_decode]. unfold is_cont.
    settle_tests. cbn [andb]. f_equal. by_division.
  - destruct ((0xD800 <=? c) && (c <=? 0xDFFF)) eqn:E.
    { apply andb_true_iff in E. rewrite !Z.leb_le in E. lia. }
    eexists. split; [reflexivity|].
    split; [repeat constructor; by_division|].
    eexists. cbn [app utf8_decode]. unfold second_of_3, is_cont, between.
    settle_tests; cbn [andb]; f_equal; by_division.
  - eexists. split; [reflexivity|].
    split; [repeat constructor; by_division|].
    eexists. cbn [app utf8_decode]. unfold second_of_4, is_cont, between.
    settle_tests; cbn [andb]; f_equal; by_division.
Qed.

Lemma utf8_decode_encode (s : pystr) :
  Forall (fun c => scalar_value c = true) s ->
  forall p, exists units,
    utf8_encode p s = Ok units
    /\ Forall (fun u => 0 <= u < 256) units
    /\ forall q, utf8_decode q units = Ok s.
Proof.
  induction 1 as [|c r Hc Hr IH]; intro p.
  - exists []. repeat split; constructor.
  - destruct (IH (S p)) as (tail & Et & Ft & Dt).
    destruct (utf8_decode_encode_point c 0 [] Hc) as (units & Eu & Fu & _).
    exists (units ++ tail). cbn [utf8_encode]. rewrite Eu, Et.
    split; [reflexivity|]. split; [apply Forall_app; now split|].
    intro q.
    destruct (utf8_decode_encode_point c q tail Hc)
      as (units' & Eu' & _ & pos' & Dq).
    rewrite Eu in Eu'. inversion Eu'; subst units'.
    rewrite Dq, Dt. reflexivity.
Qed.

Lemma narrow_ok (limit : Z) (fail : nat -> exn) (s : list Z) :
  Forall (fun c => c < limit) s -> forall p, narrow limit fail p s = Ok s.
Proof.
  induction 1 as [|c r Hc Hr IH]; intro p; [reflexivity|].
  cbn [narrow]. destruct (Z.ltb_spec c limit); [|lia].
  now rewrite IH.
Qed.

Lemma units_through_bytes (units : list Z) :
  Forall (fun u => 0 <= u < 256) units ->
  map Z_of_byte (map byte_of_Z units) = units.
Proof.
  induction 1 as [|u r Hu Hr IH]; [reflexivity|].
  cbn [map]. rewrite IH, Z_of_byte_of_Z, Z.mod_small by lia. reflexivity.
Qed.

(** A text made of code points the codec can carry survives
    [StringSerializer]: Unicode scalar values under ['utf_8'], code points
    below 128 under ['ascii'], below 256 under ['latin_1']. *)
Theorem string_round_trip (py : PyVersion) (codec : Codec) (s : pystr)
  (ctx : Ctx) :
  Forall (fun c => encodable codec c = true) s ->
  bind (StringSerializer.serialize py codec (Some s) ctx)
       (fun d => StringSerializer.deserialize py codec d ctx) = Ok (Some s).
Proof.
  intro H. unfold StringSerializer.serialize, StringSerializer.deserialize,
    str_encode, bytes_decode.
  destruct codec; cbn [encodable] in H.
  - destruct (utf8_decode_encode s H 0%nat) as (units & Eu & Fu & Du).
    rewrite Eu. cbn [bind some except_struct_error].
    rewrite (units_through_bytes units Fu), Du. reflexivity.
  - assert (F1 : Forall (fun c => c < 128) s).
    { eapply Forall_impl; [|exact H]. cbv beta. intros c Hc.
      apply andb_true_iff in Hc. rewrite Z.ltb_lt in Hc. tauto. }
    assert (F2 : Forall (fun u => 0 <= u < 256) s).
    { eapply Forall_impl; [|exact H]. cbv beta. intros c Hc.
      apply andb_true_iff in Hc. rewrite Z.leb_le, Z.ltb_lt in Hc. lia. }
    rewrite (narrow_ok 128 _ s F1). cbn [bind some except_struct_error].
    rewrite (units_through_bytes s F2), (narrow_ok 128 _ s F1). reflexivity.
  - assert (F1 : Forall (fun c => c < 256) s).
    { eapply Forall_impl; [|exact H]. cbv beta. intros c Hc.
      apply andb_true_iff in Hc. rewrite Z.ltb_lt in Hc. tauto. }
    assert (F2 : Forall (fun u => 0 <= u < 256) s).
    { eapply Forall_impl; [|exact H]. cbv beta. intros c Hc.
      apply andb_true_iff in Hc. rewrite Z.leb_le, Z.ltb_lt in Hc. lia. }
    rewrite (narrow_ok 256 _ s F1). cbn [bind some except_struct_error].
    rewrite (units_through_bytes s F2). reflexivity.
Qed.

Lemma string_round_trip_witness :
  bind (StringSerializer.serialize Py3 utf_8 (Some [8364; 65; 128512]) None)
       (fun d => StringSerializer.deserialize Py3 utf_8 d None)
  = Ok (Some [8364; 65; 128512]).
Proof.
  apply (string_round_trip Py3 utf_8 [8364; 65; 128512] None).
  repeat constructor.
Defined.

(** ** From bytes to text and back *)

Lemma cons_ok_inv {A : Type} (a : A) (r : Result (list A)) (l : list A) :
  cons_ok a r = Ok l -> exists t, r = Ok t /\ l = a :: t.
Proof.
  destruct r as [t|e]; cbn; intro H; [|discriminate].
  inversion H. now exists t.
Qed.

Lemma utf8_error_not_ok {A : Type} (pos : nat) (reason : string) (a : A) :
  utf8_error pos reason = Ok a -> False.
Proof. discriminate. Qed.

Ltac decode_step H :=
  match type of H with
  | utf8_error _ _ = Ok _ => discriminate H
  | cons_ok _ _ = Ok _ => idtac
  | (if ?a <? ?b then _ else _) = Ok _ =>
      destruct (Z.ltb_spec a b); decode_step H
  | (if is_cont ?b then _ else _) = Ok _ =>
      let E := fresh "E" in destruct (is_cont b) eqn:E; decode_step H
  | (if second_of_3 ?a ?b then _ else _) = Ok _ =>
      let E := fresh "E" in destruct (second_of_3 a b) eqn:E; decode_step H
  | (if second_of_4 ?a ?b then _ else _) = Ok _ =>
      let E := fresh "E" in destruct (second_of_4 a b) eqn:E; decode_step H
  | match ?l with [] => _ | _ :: _ => _ end = Ok _ =>
      destruct l; decode_step H
  end.

Lemma is_cont_iff b : is_cont b = true <-> 0x80 <= b <= 0xBF.
Proof. unfold is_cont. rewrite andb_true_iff, !Z.leb_le. tauto. Qed.

Lemma second_of_3_bounds b0 b1 :
  second_of_3 b0 b1 = true ->
  0x80 <= b1 <= 0xBF /\ (b0 = 0xE0 -> 0xA0 <= b1) /\ (b0 = 0xED -> b1 <= 0x9F).
Proof.
  unfold second_of_3, between, is_cont.
  destruct (Z.eqb_spec b0 0xE0); [|destruct (Z.eqb_spec b0 0xED)];
    rewrite andb_true_iff, !Z.leb_le; lia.
Qed.

Lemma second_of_4_bounds b0 b1 :
  second_of_4 b0 b1 = true ->
  0x80 <= b1 <= 0xBF /\ (b0 = 0xF0 -> 0x90 <= b1) /\ (b0 = 0xF4 -> b1 <= 0x8F).
Proof.
  unfold second_of_4, between, is_cont.
  destruct (Z.eqb_spec b0 0xF0); [|destruct (Z.eqb_spec b0 0xF4)];
    rewrite andb_true_iff, !Z.leb_le; lia.
Qed.

Lemma utf8_encode_decode_fuel (n : nat) :
  forall units pos s,
  (List.length units <= n)%nat ->
  Forall (fun u => 0 <= u < 256) units ->
  utf8_decode pos units = Ok s ->
  Forall (fun c => scalar_value c = true) s
  /\ forall p, utf8_encode p s = Ok units.
Proof.
  induction n as [|n IH]; intros units pos s Hlen Hb Hd.
  - destruct units; [|cbn in Hlen; lia]. cbn in Hd. inversion Hd.
    split; [constructor|reflexivity].
  - destruct units as [|b0 r0].
    { cbn in Hd. inversion Hd. split; [constructor|reflexivity]. }
    cbn [utf8_decode] in Hd. cbn [List.length] in Hlen.
    inversion Hb as [|? ? Hb0 Hr0]; subst.
    decode_step Hd.
    + apply cons_ok_inv in Hd. destruct Hd as (t & Ht & ->).
      apply IH in Ht; [|lia|assumption]. destruct Ht as [Fs Es].
      split.
      * constructor; [|exact Fs]. unfold scalar_value, between.
        settle_tests; try reflexivity.
      * intro p. cbn [utf8_encode]. unfold utf8_encode_point.
        settle_tests. rewrite Es. reflexivity.
    + apply cons_ok_inv in Hd. destruct Hd as (t & Ht & ->).
      inversion Hr0 as [|? ? Hb1 Hr1]; subst.
      apply is_cont_iff in E.
      apply IH in Ht; [|cbn [List.length] in Hlen; lia|assumption].
      destruct Ht as [Fs Es].
      split.
      * constructor; [|exact Fs]. unfold scalar_value, between.
        settle_tests; try reflexivity.
      * intro p. cbn [utf8_encode]. unfold utf8_encode_point.
        settle_tests. rewrite Es. cbn [bind app].
        repeat f_equal; by_division.
    + apply cons_ok_inv in Hd. destruct Hd as (t & Ht & ->).
      inversion Hr0 as [|? ? Hb1 Hr1]; subst.
      inversion Hr1 as [|? ? Hb2 Hr2]; subst.
      apply is_cont_iff in E0. apply second_of_3_bounds in E.
      apply IH in Ht; [|cbn [List.length] in Hlen; lia|assumption].
      destruct Ht as [Fs Es].
      split.
      * constructor; [|exact Fs]. unfold scalar_value, between.
        settle_tests; try reflexivity.
      * intro p. cbn [utf8_encode]. unfold utf8_encode_point, between.
        settle_tests; cbn [andb]; try by_division;
          rewrite Es; cbn [bind app]; repeat f_equal; by_division.
    + apply cons_ok_inv in Hd. destruct Hd as (t & Ht & ->).
      inversion Hr0 as [|? ? Hb1 Hr1]; subst.
      inversion Hr1 as [|? ? Hb2 Hr2]; subst.
      inversion Hr2 as [|? ? Hb3 Hr3]; subst.
      apply is_cont_iff in E0, E1. apply second_of_4_bounds in E.
      apply IH in Ht; [|cbn [List.length] in Hlen; lia|assumption].
      destruct Ht as [Fs Es].
      split.
      * constructor; [|exact Fs]. unfold scalar_value, between.
        settle_tests; try reflexivity.
      * intro p. cbn [utf8_encode]. unfold utf8_encode_point, between.
        settle_tests; cbn [andb]; try by_division;
          rewrite Es; cbn [bind app]; repeat f_equal; by_division.
Qed.

Lemma narrow_inv (limit : Z) (fail : nat -> exn) (l s : list Z) (p : nat) :
  narrow limit fail p l = Ok s -> s = l /\ Forall (fun c => c < limit) l.
Proof.
  revert s p. induction l as [|c r IH]; intros s p H; cbn [narrow] in H.
  - inversion H. split; [reflexivity|constructor].
  - destruct (Z.ltb_spec c limit); [|discriminate].
    apply cons_ok_inv in H. destruct H as (t & Ht & ->).
    apply IH in Ht. destruct Ht as [-> Ft]. split; [reflexivity|].
    now constructor.
Qed.

Lemma bytes_are_units (data : bytes) :
  Forall (fun u => 0 <= u < 256) (map Z_of_byte data)
  /\ map byte_of_Z (map Z_of_byte data) = data.
Proof.
  induction data as [|b r [IH1 IH2]]; [split; [constructor|reflexivity]|].
  cbn [map]. split.
  - constructor; [|exact IH1]. unfold Z_of_byte.
    pose proof (Byte.to_N_bounded b). lia.
  - now rewrite byte_of_Z_of_byte, IH2.
Qed.

(** What [StringSerializer.deserialize] returns is text the codec can carry,
    and serializing it gives the payload back: no payload is altered by a
    trip through the text. *)
Theorem string_buffer_round_trip (py : PyVersion) (codec : Codec)
  (data : bytes) (s : pystr) (ctx : Ctx) :
  StringSerializer.deserialize py codec (Some data) ctx = Ok (Some s) ->
  Forall (fun c => encodable codec c = true) s
  /\ StringSerializer.serialize py codec (Some s) ctx = Ok (Some data).
Proof.
  unfold StringSerializer.deserialize, StringSerializer.serialize,
    bytes_decode, str_encode.
  destruct (bytes_are_units data) as [Fu Eu].
  destruct codec; cbn [encodable].
  - destruct (utf8_decode 0 (map Z_of_byte data)) as [t|e] eqn:E;
      [|destruct e, py; discriminate].
    cbn. intro H. inversion H; subst t.
    destruct (utf8_encode_decode_fuel _ _ _ _ (le_n _) Fu E) as [Fs Es].
    split; [exact Fs|]. rewrite Es. cbn. now rewrite Eu.
  - destruct (narrow 128 _ 0 (map Z_of_byte data)) as [t|e] eqn:E;
      [|destruct e, py; discriminate].
    cbn. intro H. inversion H; subst t.
    apply narrow_inv in E. destruct E as [-> Fl].
    split.
    + rewrite Forall_forall in *. intros c Hc.
      specialize (Fu c Hc). specialize (Fl c Hc). cbv beta in *.
      apply andb_true_iff. rewrite Z.leb_le, Z.ltb_lt. lia.
    + rewrite (narrow_ok 128 _ _ Fl). cbn. now rewrite Eu.
  - cbn. intro H. inversion H; subst s.
    split.
    + rewrite Forall_forall in *. intros c Hc.
      specialize (Fu c Hc). cbv beta in *.
      apply andb_true_iff. rewrite Z.leb_le, Z.ltb_lt. lia.
    + rewrite (narrow_ok 256 _ (map Z_of_byte data)).
      * cbn. now rewrite Eu.
      * eapply Forall_impl; [|exact Fu]. cbv beta. lia.
Qed.

Lemma cons_ok_raise {A : Type} (a : A) (r : Result (list A)) (e : exn) :
  cons_ok a r = Raise e -> r = Raise e.
Proof. destruct r; cbn; congruence. Qed.

Ltac raise_step H :=
  match type of H with
  | utf8_error _ _ = Raise _ => inversion H; reflexivity
  | cons_ok _ _ = Raise _ => apply cons_ok_raise in H
  | (if ?c then _ else _) = Raise _ => destruct c; raise_step H
  | match ?l with [] => _ | _ :: _ => _ end = Raise _ =>
      destruct l; raise_step H
  end.

Lemma utf8_decode_raises (n : nat) :
  forall units pos e,
  (List.length units <= n)%nat ->
  utf8_decode pos units = Raise e -> is_unicode_error e = true.
Proof.
  induction n as [|n IH]; intros units pos e Hlen Hd.
  - destruct units; [discriminate|cbn in Hlen; lia].
  - destruct units as [|b0 r0]; [discriminate|].
    cbn [utf8_decode] in Hd. cbn [List.length] in Hlen.
    raise_step Hd; (eapply IH; [|exact Hd]); cbn [List.length] in *; lia.
Qed.

Lemma narrow_raises (limit : Z) (fail : nat -> exn) (l : list Z) (p : nat)
  (e : exn) :
  (forall q, is_unicode_error (fail q) = true) ->
  narrow limit fail p l = Raise e -> is_unicode_error e = true.
Proof.
  intro Hf. revert p. induction l as [|c r IH]; intros p H; [discriminate|].
  cbn [narrow] in H. destruct (c <? limit).
  - apply cons_ok_raise in H. now apply IH in H.
  - inversion H. apply Hf.
Qed.

Lemma utf8_encode_raises (s : pystr) (p : nat) (e : exn) :
  utf8_encode p s = Raise e -> is_unicode_error e = true.
Proof.
  revert p. induction s as [|c r IH]; intros p H; [discriminate|].
  cbn [utf8_encode] in H. destruct (utf8_encode_point c).
  - destruct (utf8_encode (S p) r) eqn:E; [discriminate|].
    cbn in H. inversion H; subst. now apply IH in E.
  - inversion H. reflexivity.
Qed.

(** Whatever [StringSerializer] raises, in either direction and under any
    codec, is a [UnicodeDecodeError] or [UnicodeEncodeError]: the
    [except struct.error] clauses are never entered and no [SerializerError]
    ever comes out of this class. *)
Theorem string_serializer_raises_unicode_errors_only (py : PyVersion)
  (codec : Codec) (ctx : Ctx) (e : exn) :
  (forall data,
     StringSerializer.deserialize py codec data ctx = Raise e ->
     is_unicode_error e = true /\ is_SerializerError e = false)
  /\ (forall datum,
        StringSerializer.serialize py codec datum ctx = Raise e ->
        is_unicode_error e = true /\ is_SerializerError e = false).
Proof.
  assert (G : is_unicode_error e = true ->
              is_unicode_error e = true /\ is_SerializerError e = false).
  { intro H. split; [exact H|]. destruct e; try discriminate; reflexivity. }
  split.
  - intros [data|]; [|discriminate].
    unfold StringSerializer.deserialize, bytes_decode. intro H. apply G.
    destruct codec.
    + destruct (utf8_decode 0 (map Z_of_byte data)) as [t|e'] eqn:E;
        [discriminate|].
      pose proof (utf8_decode_raises _ _ _ _ (le_n _) E) as Hu.
      destruct e'; try discriminate; cbn in H; inversion H; reflexivity.
    + destruct (narrow 128 _ 0 (map Z_of_byte data)) as [t|e'] eqn:E;
        [discriminate|].
      apply narrow_raises in E; [|reflexivity].
      destruct e'; try discriminate; cbn in H; inversion H; reflexivity.
    + discriminate.
  - intros [s|]; [|discriminate].
    unfold StringSerializer.serialize, str_encode. intro H. apply G.
    destruct codec.
    + destruct (utf8_encode 0 s) as [t|e'] eqn:E; [discriminate|].
      apply utf8_encode_raises in E.
      destruct e'; try discriminate; cbn in H; inversion H; reflexivity.
    + destruct (narrow 128 _ 0 s) as [t|e'] eqn:E; [discriminate|].
      apply narrow_raises in E; [|reflexivity].
      destruct e'; try discriminate; cbn in H; inversion H; reflexivity.
    + destruct (narrow 256 _ 0 s) as [t|e'] eqn:E; [discriminate|].
      apply narrow_raises in E; [|reflexivity].
      destruct e'; try discriminate; cbn in H; inversion H; reflexivity.
Qed.

Lemma string_buffer_round_trip_witness :
  Forall (fun c => encodable utf_8 c = true) [8364; 65]
  /\ StringSerializer.serialize Py3 utf_8 (Some [8364; 65]) None
     = Ok (Some [xe2; x82; xac; x41]).
Proof.
  apply (string_buffer_round_trip Py3 utf_8 [xe2; x82; xac; x41]
           [8364; 65] None).
  reflexivity.
Defined.

Lemma string_serializer_raises_unicode_errors_only_witness :
  is_unicode_error (UnicodeEncodeError "utf-8" 0 "surrogates not allowed")
  = true
  /\ is_SerializerError
       (UnicodeEncodeError "utf-8" 0 "surrogates not allowed") = false.
Proof.
  exact (proj2 (string_serializer_raises_unicode_errors_only Py3 utf_8 None
                  (UnicodeEncodeError "utf-8" 0 "surrogates not allowed"))
           (Some [55296]) eq_refl).
Defined.
